(** * ToolGoalPose: the tool-goal-pose cost function of the STOMP plugins

    A shallow embedding of
    [stomp_plugins/src/cost_functions/tool_goal_pose.cpp].

    - [double] is IEEE binary64: Rocq's primitive [float].
    - [Eigen::VectorXd] is a [list float]; [Eigen::MatrixXd] is the list of
      its columns.  Eigen's size requirements ([eigen_assert]) are written
      out: an operation applied outside of them yields [Fail eigen_assert].
    - The object is passed and returned explicitly; arguments taken by
      reference are returned with it.
    - The MoveIt robot model and state, the helpers of [utils::kinematics],
      the ROS messages and [XmlRpc::XmlRpcValue] are declared outside this
      translation unit; they are the fields of the [Collaborators] class.
      The twist argument of [computeTwist] and the pose and tolerance
      arguments of [decodeCartesianConstraint] are taken by reference; the
      former is modelled as written only, the latter as read and written. *)

From Stdlib Require Import String.
From Stdlib Require Import List ZArith NArith Floats Bool Lia.
Import ListNotations.

#[local] Set Warnings "-inexact-float".

(** ** Outcome of a call *)

(** A call either returns, or stops at one of Eigen's assertions: outside of
    an operation's size requirements C++ defines no result. *)
Inductive failure : Type :=
| eigen_assert.

Inductive result (A : Type) : Type :=
| Ok (a : A)
| Fail (e : failure).

Arguments Ok {A} a.
Arguments Fail {A} e.

Definition bind {A B : Type} (r : result A) (k : A -> result B) : result B :=
  match r with
  | Ok a => k a
  | Fail e => Fail e
  end.

Notation "x <- r ;; k" := (bind r (fun x => k))
  (at level 61, r at next level, right associativity).

(** ** The fragment of Eigen the cost function uses *)

Module Eigen.

Definition VectorXd : Type := list float.
Definition MatrixXd : Type := list VectorXd.
Definition ArrayXi : Type := list Z.

Definition size (v : VectorXd) : Z := Z.of_nat (length v).
Definition cols (m : MatrixXd) : nat := length m.

(** Coefficient-wise binary expression; both operands must have one size. *)
Fixpoint cwise {A B C : Type} (f : A -> B -> C) (a : list A) (b : list B)
  : result (list C) :=
  match a, b with
  | [], [] => Ok []
  | x :: a', y :: b' => r <- cwise f a' b' ;; Ok (f x y :: r)
  | _, _ => Fail eigen_assert
  end.

(** [cond.select(a, b)]: [a] where [cond] holds, [b] elsewhere. *)
Definition select (cond : list bool) (a b : VectorXd) : result VectorXd :=
  ab <- cwise pair a b ;;
  cwise (fun (c : bool) (p : float * float) => if c then fst p else snd p) cond ab.

(** [cond.select(s, b)] with a scalar [s]. *)
Definition select_scalar (cond : list bool) (s : float) (b : VectorXd)
  : result VectorXd :=
  cwise (fun (c : bool) (y : float) => if c then s else y) cond b.

(** [x > y] on doubles. *)
Definition gt (x y : float) : bool := PrimFloat.ltb y x.

Definition head (n : nat) (v : VectorXd) : result VectorXd :=
  if (n <=? length v)%nat then Ok (firstn n v) else Fail eigen_assert.

Definition tail (n : nat) (v : VectorXd) : result VectorXd :=
  if (n <=? length v)%nat then Ok (skipn (length v - n) v) else Fail eigen_assert.

(** [dst.head(n) = src] and [dst.tail(n) = src]. *)
Definition assign_head (n : nat) (dst src : VectorXd) : result VectorXd :=
  if ((n <=? length dst) && (length src =? n))%nat
  then Ok (src ++ skipn n dst) else Fail eigen_assert.

Definition assign_tail (n : nat) (dst src : VectorXd) : result VectorXd :=
  if ((n <=? length dst) && (length src =? n))%nat
  then Ok (firstn (length dst - n) dst ++ src) else Fail eigen_assert.

Definition scale (v : VectorXd) (s : float) : VectorXd :=
  map (fun x => PrimFloat.mul x s) v.

Definition cwiseAbs (v : VectorXd) : VectorXd := map PrimFloat.abs v.

(** [maxCoeff] reduces the coefficients in order with
    [max(res, value) = res < value ? value : res]. *)
Definition maxCoeff (v : VectorXd) : result float :=
  match v with
  | [] => Fail eigen_assert
  | x :: rest =>
      Ok (fold_left (fun res value => if gt value res then value else res) rest x)
  end.

(** [v.resize(n); v.setConstant(c)]. *)
Definition Constant (n : nat) (c : float) : VectorXd := repeat c n.

(** [v(i) = x]; the index is a signed [Eigen::Index]. *)
Definition write_coeff (v : VectorXd) (i : Z) (x : float) : result VectorXd :=
  if ((0 <=? i) && (i <? size v))%Z
  then Ok (firstn (Z.to_nat i) v ++ x :: skipn (S (Z.to_nat i)) v)
  else Fail eigen_assert.

(** [m.rightCols(n)]. *)
Definition rightCols (n : nat) (m : MatrixXd) : result MatrixXd :=
  if (n <=? cols m)%nat then Ok (skipn (cols m - n) m) else Fail eigen_assert.

(** Assignment of a matrix expression to a [VectorXd]: one column. *)
Definition as_vector (m : MatrixXd) : result VectorXd :=
  match m with
  | [c] => Ok c
  | _ => Fail eigen_assert
  end.

(** [a.all()]. *)
Definition all (a : list bool) : bool := forallb (fun b => b) a.

End Eigen.

Import Eigen.

(** ** Constants of the translation unit *)

Definition CARTESIAN_DOF_SIZE : nat := 6.
Definition DEFAULT_POS_TOLERANCE : float := 0.001%float.
Definition DEFAULT_ROT_TOLERANCE : float := 0.01%float.
Definition POS_MAX_ERROR_RATIO : float := 10.0%float.
Definition ROT_MAX_ERROR_RATIO : float := 10.0%float.
(** [M_PI] of <math.h>, 3.14159265358979323846 rounded to binary64. *)
Definition M_PI : float := 0x1.921fb54442d18p+1%float.

(** ** Messages *)

Record JointConstraint : Type := {
  joint_name : string;
  position : float
}.

Record MoveItErrorCodes : Type := { val : Z }.

(** [static_cast<double>(params[key])]: a value, or an [XmlRpcException]
    thrown with its message. *)
Inductive xmlrpc_double : Type :=
| Value (d : float)
| Throws (message : string).

(** ** Collaborators outside this translation unit *)

Class Collaborators : Type := {
  (* moveit::core *)
  RobotModel : Type;
  RobotState : Type;
  Affine3d : Type;
  (* joint_group->getLinkModelNames().back() of the named group *)
  lastLinkModelName : RobotModel -> string -> string;
  newRobotState : RobotModel -> RobotState;
  updateLinkTransforms : RobotState -> RobotState;
  update : RobotState -> RobotState;
  setVariablePosition : RobotState -> string -> float -> RobotState;
  setJointGroupPositions : RobotState -> string -> VectorXd -> RobotState;
  getGlobalLinkTransform : RobotState -> string -> Affine3d;
  (* planning_scene, stomp_core, moveit_msgs *)
  PlanningScene : Type;
  StompConfiguration : Type;
  RobotStateMsg : Type;
  Constraints : Type;
  MotionPlanRequest : Type;
  start_state : MotionPlanRequest -> RobotStateMsg;
  goal_constraints : MotionPlanRequest -> list Constraints;
  joint_constraints : Constraints -> list JointConstraint;
  INVALID_GOAL_CONSTRAINTS : Z;
  robotStateMsgToRobotState : RobotStateMsg -> RobotState -> RobotState;
  (* utils::kinematics *)
  validateCartesianConstraints : Constraints -> bool;
  constructCartesianConstraints : Constraints -> Affine3d -> Constraints;
  decodeCartesianConstraint :
    Constraints -> Affine3d -> list float -> bool * Affine3d * list float;
  computeTwist : Affine3d -> Affine3d -> ArrayXi -> VectorXd;
  (* XmlRpc: static_cast<double>(params[key]) *)
  XmlRpcValue : Type;
  member_as_double : XmlRpcValue -> string -> xmlrpc_double
}.

Section CostFunction.

Context {collaborators : Collaborators}.

Record ToolGoalPose : Type := {
  name_ : string;
  group_name_ : string;
  tool_link_ : string;
  robot_model_ : RobotModel;
  state_ : RobotState;
  tool_goal_pose_ : Affine3d;
  tool_goal_tolerance_ : VectorXd;
  position_cost_weight_ : float;
  orientation_cost_weight_ : float;
  cost_weight_ : float;
  min_twist_error_ : VectorXd;
  max_twist_error_ : VectorXd;
  last_joint_pose_ : VectorXd;
  last_tool_pose_ : Affine3d;
  tool_twist_error_ : VectorXd
}.

Definition set_tool_link_ (x : string) (self : ToolGoalPose) : ToolGoalPose :=
  {| name_ := name_ self;
     group_name_ := group_name_ self;
     tool_link_ := x;
     robot_model_ := robot_model_ self;
     state_ := state_ self;
     tool_goal_pose_ := tool_goal_pose_ self;
     tool_goal_tolerance_ := tool_goal_tolerance_ self;
     position_cost_weight_ := position_cost_weight_ self;
     orientation_cost_weight_ := orientation_cost_weight_ self;
     cost_weight_ := cost_weight_ self;
     min_twist_error_ := min_twist_error_ self;
     max_twist_error_ := max_twist_error_ self;
     last_joint_pose_ := last_joint_pose_ self;
     last_tool_pose_ := last_tool_pose_ self;
     tool_twist_error_ := tool_twist_error_ self |}.

Definition set_state_ (x : RobotState) (self : ToolGoalPose) : ToolGoalPose :=
  {| name_ := name_ self;
     group_name_ := group_name_ self;
     tool_link_ := tool_link_ self;
     robot_model_ := robot_model_ self;
     state_ := x;
     tool_goal_pose_ := tool_goal_pose_ self;
     tool_goal_tolerance_ := tool_goal_tolerance_ self;
     position_cost_weight_ := position_cost_weight_ self;
     orientation_cost_weight_ := orientation_cost_weight_ self;
     cost_weight_ := cost_weight_ self;
     min_twist_error_ := min_twist_error_ self;
     max_twist_error_ := max_twist_error_ self;
     last_joint_pose_ := last_joint_pose_ self;
     last_tool_pose_ := last_tool_pose_ self;
     tool_twist_error_ := tool_twist_error_ self |}.

Definition set_tool_goal_pose_ (x : Affine3d) (self : ToolGoalPose) : ToolGoalPose :=
  {| name_ := name_ self;
     group_name_ := group_name_ self;
     tool_link_ := tool_link_ self;
     robot_model_ := robot_model_ self;
     state_ := state_ self;
     tool_goal_pose_ := x;
     tool_goal_tolerance_ := tool_goal_tolerance_ self;
     position_cost_weight_ := position_cost_weight_ self;
     orientation_cost_weight_ := orientation_cost_weight_ self;
     cost_weight_ := cost_weight_ self;
     min_twist_error_ := min_twist_error_ self;
     max_twist_error_ := max_twist_error_ self;
     last_joint_pose_ := last_joint_pose_ self;
     last_tool_pose_ := last_tool_pose_ self;
     tool_twist_error_ := tool_twist_error_ self |}.

Definition set_tool_goal_tolerance_ (x : VectorXd) (self : ToolGoalPose) : ToolGoalPose :=
  {| name_ := name_ self;
     group_name_ := group_name_ self;
     tool_link_ := tool_link_ self;
     robot_model_ := robot_model_ self;
     state_ := state_ self;
     tool_goal_pose_ := tool_goal_pose_ self;
     tool_goal_tolerance_ := x;
     position_cost_weight_ := position_cost_weight_ self;
     orientation_cost_weight_ := orientation_cost_weight_ self;
     cost_weight_ := cost_weight_ self;
     min_twist_error_ := min_twist_error_ self;
     max_twist_error_ := max_twist_error_ self;
     last_joint_pose_ := last_joint_pose_ self;
     last_tool_pose_ := last_tool_pose_ self;
     tool_twist_error_ := tool_twist_error_ self |}.

Definition set_position_cost_weight_ (x : float) (self : ToolGoalPose) : ToolGoalPose :=
  {| name_ := name_ self;
     group_name_ := group_name_ self;
     tool_link_ := tool_link_ self;
     robot_model_ := robot_model_ self;
     state_ := state_ self;
     tool_goal_pose_ := tool_goal_pose_ self;
     tool_goal_tolerance_ := tool_goal_tolerance_ self;
     position_cost_weight_ := x;
     orientation_cost_weight_ := orientation_cost_weight_ self;
     cost_weight_ := cost_weight_ self;
     min_twist_error_ := min_twist_error_ self;
     max_twist_error_ := max_twist_error_ self;
     last_joint_pose_ := last_joint_pose_ self;
     last_tool_pose_ := last_tool_pose_ self;
     tool_twist_error_ := tool_twist_error_ self |}.

Definition set_orientation_cost_weight_ (x : float) (self : ToolGoalPose) : ToolGoalPose :=
  {| name_ := name_ self;
     group_name_ := group_name_ self;
     tool_link_ := tool_link_ self;
     robot_model_ := robot_model_ self;
     state_ := state_ self;
     tool_goal_pose_ := tool_goal_pose_ self;
     tool_goal_tolerance_ := tool_goal_tolerance_ self;
     position_cost_weight_ := position_cost_weight_ self;
     orientation_cost_weight_ := x;
     cost_weight_ := cost_weight_ self;
     min_twist_error_ := min_twist_error_ self;
     max_twist_error_ := max_twist_error_ self;
     last_joint_pose_ := last_joint_pose_ self;
     last_tool_pose_ := last_tool_pose_ self;
     tool_twist_error_ := tool_twist_error_ self |}.

Definition set_cost_weight_ (x : float) (self : ToolGoalPose) : ToolGoalPose :=
  {| name_ := name_ self;
     group_name_ := group_name_ self;
     tool_link_ := tool_link_ self;
     robot_model_ := robot_model_ self;
     state_ := state_ self;
     tool_goal_pose_ := tool_goal_pose_ self;
     tool_goal_tolerance_ := tool_goal_tolerance_ self;
     position_cost_weight_ := position_cost_weight_ self;
     orientation_cost_weight_ := orientation_cost_weight_ self;
     cost_weight_ := x;
     min_twist_error_ := min_twist_error_ self;
     max_twist_error_ := max_twist_error_ self;
     last_joint_pose_ := last_joint_pose_ self;
     last_tool_pose_ := last_tool_pose_ self;
     tool_twist_error_ := tool_twist_error_ self |}.

Definition set_min_twist_error_ (x : VectorXd) (self : ToolGoalPose) : ToolGoalPose :=
  {| name_ := name_ self;
     group_name_ := group_name_ self;
     tool_link_ := tool_link_ self;
     robot_model_ := robot_model_ self;
     state_ := state_ self;
     tool_goal_pose_ := tool_goal_pose_ self;
     tool_goal_tolerance_ := tool_goal_tolerance_ self;
     position_cost_weight_ := position_cost_weight_ self;
     orientation_cost_weight_ := orientation_cost_weight_ self;
     cost_weight_ := cost_weight_ self;
     min_twist_error_ := x;
     max_twist_error_ := max_twist_error_ self;
     last_joint_pose_ := last_joint_pose_ self;
     last_tool_pose_ := last_tool_pose_ self;
     tool_twist_error_ := tool_twist_error_ self |}.

Definition set_max_twist_error_ (x : VectorXd) (self : ToolGoalPose) : ToolGoalPose :=
  {| name_ := name_ self;
     group_name_ := group_name_ self;
     tool_link_ := tool_link_ self;
     robot_model_ := robot_model_ self;
     state_ := state_ self;
     tool_goal_pose_ := tool_goal_pose_ self;
     tool_goal_tolerance_ := tool_goal_tolerance_ self;
     position_cost_weight_ := position_cost_weight_ self;
     orientation_cost_weight_ := orientation_cost_weight_ self;
     cost_weight_ := cost_weight_ self;
     min_twist_error_ := min_twist_error_ self;
     max_twist_error_ := x;
     last_joint_pose_ := last_joint_pose_ self;
     last_tool_pose_ := last_tool_pose_ self;
     tool_twist_error_ := tool_twist_error_ self |}.

Definition set_last_joint_pose_ (x : VectorXd) (self : ToolGoalPose) : ToolGoalPose :=
  {| name_ := name_ self;
     group_name_ := group_name_ self;
     tool_link_ := tool_link_ self;
     robot_model_ := robot_model_ self;
     state_ := state_ self;
     tool_goal_pose_ := tool_goal_pose_ self;
     tool_goal_tolerance_ := tool_goal_tolerance_ self;
     position_cost_weight_ := position_cost_weight_ self;
     orientation_cost_weight_ := orientation_cost_weight_ self;
     cost_weight_ := cost_weight_ self;
     min_twist_error_ := min_twist_error_ self;
     max_twist_error_ := max_twist_error_ self;
     last_joint_pose_ := x;
     last_tool_pose_ := last_tool_pose_ self;
     tool_twist_error_ := tool_twist_error_ self |}.

Definition set_last_tool_pose_ (x : Affine3d) (self : ToolGoalPose) : ToolGoalPose :=
  {| name_ := name_ self;
     group_name_ := group_name_ self;
     tool_link_ := tool_link_ self;
     robot_model_ := robot_model_ self;
     state_ := state_ self;
     tool_goal_pose_ := tool_goal_pose_ self;
     tool_goal_tolerance_ := tool_goal_tolerance_ self;
     position_cost_weight_ := position_cost_weight_ self;
     orientation_cost_weight_ := orientation_cost_weight_ self;
     cost_weight_ := cost_weight_ self;
     min_twist_error_ := min_twist_error_ self;
     max_twist_error_ := max_twist_error_ self;
     last_joint_pose_ := last_joint_pose_ self;
     last_tool_pose_ := x;
     tool_twist_error_ := tool_twist_error_ self |}.

Definition set_tool_twist_error_ (x : VectorXd) (self : ToolGoalPose) : ToolGoalPose :=
  {| name_ := name_ self;
     group_name_ := group_name_ self;
     tool_link_ := tool_link_ self;
     robot_model_ := robot_model_ self;
     state_ := state_ self;
     tool_goal_pose_ := tool_goal_pose_ self;
     tool_goal_tolerance_ := tool_goal_tolerance_ self;
     position_cost_weight_ := position_cost_weight_ self;
     orientation_cost_weight_ := orientation_cost_weight_ self;
     cost_weight_ := cost_weight_ self;
     min_twist_error_ := min_twist_error_ self;
     max_twist_error_ := max_twist_error_ self;
     last_joint_pose_ := last_joint_pose_ self;
     last_tool_pose_ := last_tool_pose_ self;
     tool_twist_error_ := x |}.

(** ** configure *)

Definition configure (self : ToolGoalPose) (config : XmlRpcValue)
  : ToolGoalPose * bool :=
  let params := config in
  match member_as_double params "position_cost_weight"%string with
  | Throws _ => (self, false)
  | Value p =>
      let self := set_position_cost_weight_ p self in
      match member_as_double params "orientation_cost_weight"%string with
      | Throws _ => (self, false)
      | Value o =>
          let self := set_orientation_cost_weight_ o self in
          (* total weight *)
          let self :=
            set_cost_weight_
              (position_cost_weight_ self + orientation_cost_weight_ self)%float
              self in
          (self, true)
      end
  end.

(** ** computeCosts *)

(** The lambda [compute_scaled_error] of [computeCosts]. *)
Definition compute_scaled_error (val min max : VectorXd) : result VectorXd :=
  above <- cwise gt val max ;;
  capped_val <- select above max val ;;
  below <- cwise PrimFloat.ltb val min ;;
  capped_val <- select below min val ;;
  range <- cwise PrimFloat.sub max min ;;
  shifted <- cwise PrimFloat.sub capped_val min ;;
  cwise PrimFloat.div shifted range.

(** The arguments passed by reference, the object and the returned flag,
    as they stand when the call returns. *)
Record computeCosts_exit : Type := {
  this : ToolGoalPose;
  parameters : MatrixXd;
  costs : VectorXd;
  validity : bool;
  returned : bool
}.

Definition computeCosts (self : ToolGoalPose) (parameters : MatrixXd)
  (start_timestep num_timesteps : N) (iteration_number rollout_number : Z)
  (costs : VectorXd) (validity : bool) : result computeCosts_exit :=
  let validity := true in
  right_col <- rightCols 1 parameters ;;
  last_joint_pose <- as_vector right_col ;;
  let self := set_last_joint_pose_ last_joint_pose self in
  let self :=
    set_state_
      (setJointGroupPositions (state_ self) (group_name_ self)
         (last_joint_pose_ self)) self in
  let self :=
    set_last_tool_pose_ (getGlobalLinkTransform (state_ self) (tool_link_ self))
      self in
  (* computing twist error *)
  let constrained_dof : ArrayXi := repeat 1%Z 6 in
  let self :=
    set_tool_twist_error_
      (computeTwist (last_tool_pose_ self) (tool_goal_pose_ self) constrained_dof)
      self in
  (* computing relative error values *)
  scaled_twist_error <-
    compute_scaled_error (tool_twist_error_ self) (min_twist_error_ self)
      (max_twist_error_ self) ;;
  pos_head <- head 3 scaled_twist_error ;;
  pos_error <- maxCoeff (cwiseAbs pos_head) ;;
  rot_tail <- tail 3 scaled_twist_error ;;
  orientation_error <- maxCoeff (cwiseAbs rot_tail) ;;
  (* computing cost of last point *)
  let costs := Constant (cols parameters) 0%float in
  costs <-
    write_coeff costs (size costs - 1)
      (pos_error * position_cost_weight_ self
       + orientation_error * orientation_cost_weight_ self)%float ;;
  (* check if valid when twist errors are below the allowed tolerance. *)
  within <- cwise PrimFloat.leb (tool_twist_error_ self) (tool_goal_tolerance_ self) ;;
  let validity := all within in
  Ok {| this := self; parameters := parameters; costs := costs;
        validity := validity; returned := true |}.

(** ** setMotionPlanRequest *)

(** How the loop over the goals is left: by [break] (or after the last goal),
    or by the [return] inside it. *)
Inductive loop_exit : Type :=
| loop_done (self : ToolGoalPose) (found_goal : bool)
| loop_return (self : ToolGoalPose) (error_code : MoveItErrorCodes) (r : bool).

Fixpoint goals_loop (goals : list Constraints) (self : ToolGoalPose)
  (found_goal : bool) : loop_exit :=
  match goals with
  | [] => loop_done self found_goal
  | g :: rest =>
      if validateCartesianConstraints g then
        (* tool cartesian goal data *)
        let self := set_state_ (updateLinkTransforms (state_ self)) self in
        let start_tool_pose := getGlobalLinkTransform (state_ self) (tool_link_ self) in
        let cartesian_constraints := constructCartesianConstraints g start_tool_pose in
        let tolerance : list float := [] in
        let '(found, pose, tolerance) :=
          decodeCartesianConstraint cartesian_constraints (tool_goal_pose_ self)
            tolerance in
        loop_done (set_tool_goal_pose_ pose self) found
      else if negb found_goal then
        (* check joint constraints *)
        match joint_constraints g with
        | [] => loop_return self {| val := INVALID_GOAL_CONSTRAINTS |} false
        | _ :: _ =>
            (* copying goal values into state *)
            let self :=
              set_state_
                (fold_left
                   (fun s jc => setVariablePosition s (joint_name jc) (position jc))
                   (joint_constraints g) (state_ self)) self in
            (* storing tool goal pose and tolerance *)
            let self := set_state_ (update (state_ self)) self in
            let self :=
              set_tool_goal_pose_
                (getGlobalLinkTransform (state_ self) (tool_link_ self)) self in
            let ptol := DEFAULT_POS_TOLERANCE in
            let rtol := DEFAULT_ROT_TOLERANCE in
            let self :=
              set_tool_goal_tolerance_ [ptol; ptol; ptol; rtol; rtol; rtol] self in
            loop_done self true
        end
      else goals_loop rest self found_goal
  end.

Definition setMotionPlanRequest (self : ToolGoalPose)
  (planning_scene : PlanningScene) (req : MotionPlanRequest)
  (config : StompConfiguration) (error_code : MoveItErrorCodes)
  : result (ToolGoalPose * MoveItErrorCodes * bool) :=
  let self :=
    set_tool_link_ (lastLinkModelName (robot_model_ self) (group_name_ self)) self in
  let self := set_state_ (newRobotState (robot_model_ self)) self in
  let self :=
    set_state_ (robotStateMsgToRobotState (start_state req) (state_ self)) self in
  let goals := goal_constraints req in
  match goals with
  | [] => Ok (self, {| val := INVALID_GOAL_CONSTRAINTS |}, false)
  | _ :: _ =>
      (* storing tool goal pose *)
      match goals_loop goals self false with
      | loop_return self error_code r => Ok (self, error_code, r)
      | loop_done self found_goal =>
          (* setting cartesian error range *)
          let self := set_min_twist_error_ (tool_goal_tolerance_ self) self in
          min_head <- head 3 (min_twist_error_ self) ;;
          max_twist_error <-
            assign_head 3 (max_twist_error_ self) (scale min_head POS_MAX_ERROR_RATIO) ;;
          let self := set_max_twist_error_ max_twist_error self in
          min_tail <- tail 3 (min_twist_error_ self) ;;
          max_twist_error <-
            assign_tail 3 (max_twist_error_ self) (scale min_tail ROT_MAX_ERROR_RATIO) ;;
          let self := set_max_twist_error_ max_twist_error self in
          max_tail <- tail 3 (max_twist_error_ self) ;;
          capped <-
            select_scalar (map (fun x => gt x M_PI) max_tail) M_PI max_tail ;;
          max_twist_error <- assign_tail 3 (max_twist_error_ self) capped ;;
          let self := set_max_twist_error_ max_twist_error self in
          Ok (self, error_code, true)
      end
  end.

(** ** Notions used to state the properties of [computeCosts] *)

(** The tool pose [computeCosts] obtains from the joint vector [q]. *)
Definition final_tool_pose (self : ToolGoalPose) (q : VectorXd) : Affine3d :=
  getGlobalLinkTransform
    (setJointGroupPositions (state_ self) (group_name_ self) q) (tool_link_ self).

(** The twist from that pose to the stored goal pose, all six degrees of
    freedom constrained. *)
Definition final_twist_error (self : ToolGoalPose) (q : VectorXd) : VectorXd :=
  computeTwist (final_tool_pose self q) (tool_goal_pose_ self) (repeat 1%Z 6).

(** The object as [computeCosts] leaves it. *)
Definition after_computeCosts (self : ToolGoalPose) (q : VectorXd) : ToolGoalPose :=
  set_tool_twist_error_ (final_twist_error self q)
    (set_last_tool_pose_ (final_tool_pose self q)
       (set_state_ (setJointGroupPositions (state_ self) (group_name_ self) q)
          (set_last_joint_pose_ q self))).

(** Two objects are configured alike: same goal pose, tolerances, error range
    and weights, and the same tool pose for every joint vector. *)
Record same_configuration (a b : ToolGoalPose) : Prop := {
  same_kinematics : forall q, final_tool_pose a q = final_tool_pose b q;
  same_goal : tool_goal_pose_ a = tool_goal_pose_ b;
  same_tolerance : tool_goal_tolerance_ a = tool_goal_tolerance_ b;
  same_min : min_twist_error_ a = min_twist_error_ b;
  same_max : max_twist_error_ a = max_twist_error_ b;
  same_position_weight : position_cost_weight_ a = position_cost_weight_ b;
  same_orientation_weight : orientation_cost_weight_ a = orientation_cost_weight_ b
}.

(** Setting the positions of a joint group overwrites the positions set for
    that group before. *)
Definition group_positions_overwritten : Prop :=
  forall (s : RobotState) (g l : string) (q q' : VectorXd),
    getGlobalLinkTransform (setJointGroupPositions (setJointGroupPositions s g q) g q') l
    = getGlobalLinkTransform (setJointGroupPositions s g q') l.

(** What the caller receives from a call: costs, validity, returned flag. *)
Definition outputs (r : result computeCosts_exit) : result (VectorXd * bool * bool) :=
  x <- r ;; Ok (costs x, validity x, returned x).

(** The twist error, the error range and the tolerance all have the six
    cartesian degrees of freedom. *)
Definition six_dof (self : ToolGoalPose) (q : VectorXd) : Prop :=
  length (final_twist_error self q) = CARTESIAN_DOF_SIZE /\
  length (min_twist_error_ self) = CARTESIAN_DOF_SIZE /\
  length (max_twist_error_ self) = CARTESIAN_DOF_SIZE /\
  length (tool_goal_tolerance_ self) = CARTESIAN_DOF_SIZE.

End CostFunction.

(** The width [max - min] of every component of the error range is a number
    other than zero. *)
Definition proper_range (min max : VectorXd) : bool :=
  forallb
    (fun lo_hi : float * float =>
       let width := (snd lo_hi - fst lo_hi)%float in
       negb (is_nan width) && negb (is_zero width))
    (combine min max).

(** ** A concrete robot: a six-axis gantry

    The six joints are the six coordinates of the tool, so that the tool pose
    is the joint vector and the twist from one pose to another is their
    coefficient-wise difference.  It is the instance on which the statements
    below are evaluated. *)

Module Gantry.

Record Goal : Type := {
  cartesian : option VectorXd;
  joints : list JointConstraint
}.

Record Request : Type := {
  start : VectorXd;
  goals : list Goal
}.

Definition joint_names : list string :=
  ["x"; "y"; "z"; "rx"; "ry"; "rz"]%string.

Fixpoint set_joint (names : list string) (s : VectorXd) (name : string) (x : float)
  : VectorXd :=
  match names, s with
  | n :: names', v :: s' =>
      if String.eqb n name then x :: s' else v :: set_joint names' s' name x
  | _, _ => s
  end.

Definition twist (p0 pf : VectorXd) (nullity : ArrayXi) : VectorXd :=
  map (fun '(a, b, c) => if (c =? 0)%Z then 0%float else (b - a)%float)
    (combine (combine p0 pf) nullity).

#[export] Instance gantry : Collaborators := {|
  RobotModel := unit;
  RobotState := VectorXd;
  Affine3d := VectorXd;
  lastLinkModelName := fun _ _ => "tool0"%string;
  newRobotState := fun _ => repeat 0%float 6;
  updateLinkTransforms := fun s => s;
  update := fun s => s;
  setVariablePosition := set_joint joint_names;
  setJointGroupPositions := fun _ _ q => q;
  getGlobalLinkTransform := fun s _ => s;
  PlanningScene := unit;
  StompConfiguration := unit;
  RobotStateMsg := VectorXd;
  Constraints := Goal;
  MotionPlanRequest := Request;
  start_state := start;
  goal_constraints := goals;
  joint_constraints := joints;
  INVALID_GOAL_CONSTRAINTS := (-16)%Z;
  robotStateMsgToRobotState := fun msg _ => msg;
  validateCartesianConstraints :=
    fun g => match cartesian g with Some _ => true | None => false end;
  constructCartesianConstraints := fun g _ => g;
  decodeCartesianConstraint :=
    fun g pose tolerance =>
      match cartesian g with
      | Some p => (true, p, repeat DEFAULT_POS_TOLERANCE 6)
      | None => (false, pose, tolerance)
      end;
  computeTwist := twist;
  XmlRpcValue := string -> xmlrpc_double;
  member_as_double := fun params key => params key
|}.

(** The object as [setMotionPlanRequest] leaves it for a joint goal: default
    tolerances, unit weights, tool goal at [goal]. *)
Definition evaluator (goal : VectorXd) : ToolGoalPose :=
  {| name_ := "ToolGoalPose"%string;
     group_name_ := "manipulator"%string;
     tool_link_ := "tool0"%string;
     robot_model_ := tt;
     state_ := goal;
     tool_goal_pose_ := goal;
     tool_goal_tolerance_ := [0.001; 0.001; 0.001; 0.01; 0.01; 0.01]%float;
     position_cost_weight_ := 1%float;
     orientation_cost_weight_ := 1%float;
     cost_weight_ := 2%float;
     min_twist_error_ := [0.001; 0.001; 0.001; 0.01; 0.01; 0.01]%float;
     max_twist_error_ := [0.01; 0.01; 0.01; 0.1; 0.1; 0.1]%float;
     last_joint_pose_ := [];
     last_tool_pose_ := [];
     tool_twist_error_ := [] |}.

(** The object before [setMotionPlanRequest]. *)
Definition unplanned : ToolGoalPose :=
  {| name_ := "ToolGoalPose"%string;
     group_name_ := "manipulator"%string;
     tool_link_ := ""%string;
     robot_model_ := tt;
     state_ := [];
     tool_goal_pose_ := [];
     tool_goal_tolerance_ := [];
     position_cost_weight_ := 1%float;
     orientation_cost_weight_ := 1%float;
     cost_weight_ := 2%float;
     min_twist_error_ := [];
     max_twist_error_ := repeat 0%float 6;
     last_joint_pose_ := [];
     last_tool_pose_ := [];
     tool_twist_error_ := [] |}.

Definition home : VectorXd := repeat 0%float 6.

(** A request to move the first axis to [x], given as a joint goal. *)
Definition move_x (x : float) : Request :=
  {| start := home;
     goals := [ {| cartesian := None;
                   joints := [ {| joint_name := "x"%string; position := x |} ] |} ] |}.

(** A trajectory of three timesteps that stays at the home position. *)
Definition stay_home : MatrixXd := [home; home; home].

(** Tool goals: at home, one unit along the first axis, and very far along it. *)
Definition one_off : VectorXd := [1; 0; 0; 0; 0; 0]%float.
Definition far_off : VectorXd := [1e308; 0; 0; 0; 0; 0]%float.

(** Configurations: both weights present, and the orientation weight given
    as a string. *)
Definition weights_2_3 : string -> xmlrpc_double :=
  fun key =>
    if String.eqb key "position_cost_weight" then Value 2%float
    else if String.eqb key "orientation_cost_weight" then Value 3%float
    else Throws "type error"%string.

Definition weight_as_string : string -> xmlrpc_double :=
  fun key =>
    if String.eqb key "position_cost_weight" then Value 2%float
    else Throws "type error"%string.

(** Requests without a usable goal. *)
Definition no_goal : Request := {| start := home; goals := [] |}.
Definition empty_goal : Request :=
  {| start := home; goals := [ {| cartesian := None; joints := [] |} ] |}.

(** A request to bring the tool to [p], given as a cartesian goal, and one
    with a second goal behind a joint goal. *)
Definition reach (p : VectorXd) : Request :=
  {| start := home; goals := [ {| cartesian := Some p; joints := [] |} ] |}.

Definition move_x_then_reach (x : float) (p : VectorXd) : Request :=
  {| start := home;
     goals := [ {| cartesian := None;
                   joints := [ {| joint_name := "x"%string; position := x |} ] |};
                {| cartesian := Some p; joints := [] |} ] |}.

(** A trajectory of two timesteps from home to [one_off]. *)
Definition go_one_off : MatrixXd := [home; one_off].

End Gantry.

(** * Facts *)

(** ** The result monad *)

Lemma bind_Ok {A B : Type} (r : result A) (k : A -> result B) (b : B) :
  bind r k = Ok b -> exists a, r = Ok a /\ k a = Ok b.
Proof.
  destruct r as [a | e]; simpl; intros H.
  - exists a; split; [reflexivity | exact H].
  - discriminate H.
Qed.

Ltac bind_inv H :=
  let a := fresh "x" in
  let E := fresh "E" in
  apply bind_Ok in H; destruct H as (a & E & H).

(** ** Eigen *)

Section EigenFacts.

Context {A B C : Type} (f : A -> B -> C).

Lemma cwise_length (a : list A) (b : list B) (r : list C) :
  cwise f a b = Ok r -> length a = length r /\ length b = length r.
Proof.
  revert b r; induction a as [| x a IH]; intros [| y b] r H; simpl in H;
    try discriminate H.
  - injection H as <-; split; reflexivity.
  - bind_inv H. injection H as <-.
    destruct (IH _ _ E) as [Ha Hb]; simpl; split; congruence.
Qed.

Lemma cwise_defined (a : list A) (b : list B) :
  length a = length b -> exists r, cwise f a b = Ok r.
Proof.
  revert b; induction a as [| x a IH]; intros [| y b] H; simpl in H;
    try discriminate H.
  - exists []; reflexivity.
  - injection H as H. destruct (IH _ H) as [r Hr].
    exists (f x y :: r); simpl; rewrite Hr; reflexivity.
Qed.

Lemma cwise_nth (a : list A) (b : list B) (r : list C) (da : A) (db : B) (dc : C)
  (i : nat) :
  cwise f a b = Ok r -> (i < length r)%nat ->
  nth i r dc = f (nth i a da) (nth i b db).
Proof.
  revert b r i; induction a as [| x a IH]; intros [| y b] r i H Hi; simpl in H;
    try discriminate H.
  - injection H as <-; simpl in Hi; lia.
  - bind_inv H. injection H as <-.
    destruct i as [| i]; simpl; [reflexivity |].
    apply IH; [exact E | simpl in Hi; lia].
Qed.

End EigenFacts.

Lemma all_nth (a : list bool) :
  all a = true <-> forall i, (i < length a)%nat -> nth i a true = true.
Proof.
  unfold all; induction a as [| b a IH]; simpl.
  - split; [intros _ i Hi; lia | reflexivity].
  - rewrite andb_true_iff, IH; split.
    + intros [Hb Ha] [| i] Hi; [exact Hb | apply Ha; lia].
    + intros H; split; [apply (H 0%nat); lia |].
      intros i Hi; apply (H (S i)); lia.
Qed.

Lemma all_false_nth (a : list bool) :
  all a = false <-> exists i, (i < length a)%nat /\ nth i a true = false.
Proof.
  unfold all; induction a as [| b a IH]; simpl.
  - split; [discriminate | intros (i & Hi & _); lia].
  - rewrite andb_false_iff, IH; split.
    + intros [Hb | (i & Hi & Hn)].
      * exists 0%nat; split; [lia | exact Hb].
      * exists (S i); split; [lia | exact Hn].
    + intros ([| i] & Hi & Hn).
      * left; exact Hn.
      * right; exists i; split; [lia | exact Hn].
Qed.

Lemma select_length (cond : list bool) (a b r : VectorXd) :
  select cond a b = Ok r -> length a = length r /\ length b = length r.
Proof.
  unfold select; intros H; bind_inv H.
  apply cwise_length in E; apply cwise_length in H; lia.
Qed.

Lemma select_defined (cond : list bool) (a b : VectorXd) :
  length cond = length a -> length a = length b -> exists r, select cond a b = Ok r.
Proof.
  intros Hc Hab; unfold select.
  destruct (cwise_defined pair a b Hab) as [ab Hp]; rewrite Hp; simpl.
  apply cwise_defined. apply cwise_length in Hp; lia.
Qed.

Lemma select_nth (cond : list bool) (a b r : VectorXd) (i : nat) :
  select cond a b = Ok r -> (i < length r)%nat ->
  nth i r 0%float
  = if nth i cond false then nth i a 0%float else nth i b 0%float.
Proof.
  unfold select; intros H Hi; bind_inv H.
  rewrite (cwise_nth _ _ _ _ false (0%float, 0%float) 0%float i H Hi).
  apply cwise_length in H as [_ Hl].
  rewrite (cwise_nth _ _ _ _ 0%float 0%float (0%float, 0%float) i E) by lia.
  reflexivity.
Qed.

Lemma maxCoeff_defined (v : VectorXd) :
  v <> [] -> exists x, maxCoeff v = Ok x.
Proof.
  destruct v as [| x rest]; [congruence | intros _; eexists; reflexivity].
Qed.

Lemma write_last_Constant (n : nat) (c x : float) (r : VectorXd) :
  write_coeff (Constant n c) (size (Constant n c) - 1) x = Ok r ->
  (0 < n)%nat /\ r = repeat c (n - 1) ++ [x].
Proof.
  unfold write_coeff, size, Constant; rewrite repeat_length.
  destruct n as [| n].
  - simpl; discriminate.
  - replace (Z.of_nat (S n) - 1)%Z with (Z.of_nat n) by lia.
    rewrite Nat2Z.id.
    destruct ((0 <=? Z.of_nat n) && (Z.of_nat n <? Z.of_nat (S n)))%Z; [| discriminate].
    intros H; injection H as <-. split; [lia |].
    replace (S n - 1)%nat with n by lia.
    rewrite skipn_all2 by (rewrite repeat_length; lia).
    f_equal. clear. induction n as [| n IH]; [reflexivity |].
    simpl in *; f_equal; exact IH.
Qed.

Lemma write_last_Constant_defined (n : nat) (c x : float) :
  (0 < n)%nat ->
  exists r, write_coeff (Constant n c) (size (Constant n c) - 1) x = Ok r.
Proof.
  intros Hn; unfold write_coeff, size, Constant; rewrite repeat_length.
  replace ((0 <=? Z.of_nat n - 1) && (Z.of_nat n - 1 <? Z.of_nat n))%Z with true.
  - eexists; reflexivity.
  - symmetry; apply andb_true_iff; split; [apply Z.leb_le | apply Z.ltb_lt]; lia.
Qed.

Lemma rightCols_last (m : MatrixXd) (rc : MatrixXd) (q : VectorXd) :
  rightCols 1 m = Ok rc -> as_vector rc = Ok q ->
  m = removelast m ++ [q] /\ last m [] = q.
Proof.
  unfold rightCols, cols, as_vector.
  destruct (1 <=? length m)%nat eqn:Hl; [| discriminate].
  intros H; injection H as <-.
  apply Nat.leb_le in Hl.
  destruct (exists_last (l := m)) as (front & c & ->).
  { intros ->; simpl in Hl; lia. }
  rewrite length_app; simpl.
  replace (length front + 1 - 1)%nat with (length front) by lia.
  rewrite skipn_app, skipn_all, Nat.sub_diag; simpl.
  intros H; injection H as <-.
  rewrite removelast_last, last_last; split; reflexivity.
Qed.

Lemma rightCols_defined (m : MatrixXd) :
  m <> [] -> exists q, (rightCols 1 m = Ok [q]) /\ last m [] = q.
Proof.
  intros Hm. destruct (exists_last Hm) as (front & c & ->).
  exists c; unfold rightCols, cols; rewrite length_app, last_last.
  change (length [c]) with 1%nat; rewrite Nat.add_1_r.
  change (1 <=? S (length front))%nat with true; cbv iota.
  replace (S (length front) - 1)%nat with (length front) by lia.
  rewrite skipn_app, skipn_all, Nat.sub_diag; simpl; split; reflexivity.
Qed.

Lemma head_defined (n : nat) (v : VectorXd) :
  (n <= length v)%nat -> head n v = Ok (firstn n v).
Proof.
  intros H; unfold head. apply Nat.leb_le in H; rewrite H; reflexivity.
Qed.

Lemma tail_defined (n : nat) (v : VectorXd) :
  (n <= length v)%nat -> tail n v = Ok (skipn (length v - n) v).
Proof.
  intros H; unfold tail. apply Nat.leb_le in H; rewrite H; reflexivity.
Qed.

(** ** compute_scaled_error *)

Lemma compute_scaled_error_length (val min max scaled : VectorXd) :
  compute_scaled_error val min max = Ok scaled ->
  length scaled = length val /\ length min = length val /\ length max = length val.
Proof.
  unfold compute_scaled_error; intros H.
  bind_inv H. bind_inv H. bind_inv H. bind_inv H. bind_inv H. bind_inv H.
  apply cwise_length in E, E1, E3, E4, H.
  apply select_length in E0, E2. lia.
Qed.

Lemma compute_scaled_error_defined (val min max : VectorXd) :
  length min = length val -> length max = length val ->
  exists scaled, compute_scaled_error val min max = Ok scaled.
Proof.
  intros Hmin Hmax; unfold compute_scaled_error.
  destruct (cwise_defined gt val max) as [above Ha]; [congruence |].
  rewrite Ha; cbn [bind].
  destruct (select_defined above max val) as [c1 Hc1];
    [apply cwise_length in Ha; lia | congruence |].
  rewrite Hc1; cbn [bind].
  destruct (cwise_defined PrimFloat.ltb val min) as [below Hb]; [congruence |].
  rewrite Hb; cbn [bind].
  destruct (select_defined below min val) as [capped Hc];
    [apply cwise_length in Hb; lia | congruence |].
  rewrite Hc; cbn [bind].
  destruct (cwise_defined PrimFloat.sub max min) as [range Hr]; [congruence |].
  rewrite Hr; cbn [bind].
  destruct (cwise_defined PrimFloat.sub capped min) as [shifted Hs];
    [apply select_length in Hc; lia |].
  rewrite Hs; cbn [bind].
  apply cwise_defined.
  apply cwise_length in Hr, Hs; lia.
Qed.

(** Each component of the result: the value raised to [min] where it is below
    it, shifted by [min] and divided by the width of the range.  [max] enters
    through the divisor only. *)
Lemma compute_scaled_error_nth (val min max scaled : VectorXd) (i : nat) :
  compute_scaled_error val min max = Ok scaled -> (i < length scaled)%nat ->
  nth i scaled 0%float
  = (((if PrimFloat.ltb (nth i val 0) (nth i min 0) then nth i min 0 else nth i val 0)
      - nth i min 0) / (nth i max 0 - nth i min 0))%float.
Proof.
  intros H Hi. destruct (compute_scaled_error_length _ _ _ _ H) as (Hl & Hmin & Hmax).
  unfold compute_scaled_error in H.
  bind_inv H. bind_inv H. bind_inv H. bind_inv H. bind_inv H. bind_inv H.
  pose proof (cwise_length _ _ _ _ E1) as [L1 L1'].
  pose proof (select_length _ _ _ _ E2) as [L2 L2'].
  pose proof (cwise_length _ _ _ _ E3) as [L3 L3'].
  pose proof (cwise_length _ _ _ _ E4) as [L4 L4'].
  rewrite (cwise_nth _ _ _ _ 0%float 0%float 0%float i H Hi).
  rewrite (cwise_nth _ _ _ _ 0%float 0%float 0%float i E4) by lia.
  rewrite (cwise_nth _ _ _ _ 0%float 0%float 0%float i E3) by lia.
  rewrite (select_nth _ _ _ _ i E2) by lia.
  rewrite (cwise_nth _ _ _ _ 0%float 0%float false i E1) by lia.
  reflexivity.
Qed.

(** ** computeCosts *)

Section ComputeCostsFacts.

Context {collaborators : Collaborators}.

Variables (self : ToolGoalPose) (P : MatrixXd).
Variables (start_timestep num_timesteps : N).
Variables (iteration_number rollout_number : Z).
Variables (costs0 : VectorXd) (validity0 : bool).

(** Every call that returns has gone through the same steps. *)
Lemma computeCosts_Ok (out : computeCosts_exit) :
  computeCosts self P start_timestep num_timesteps iteration_number rollout_number
    costs0 validity0 = Ok out ->
  exists scaled pos_head pos_error rot_tail orientation_error within,
    P <> [] /\
    compute_scaled_error (final_twist_error self (last P []))
      (min_twist_error_ self) (max_twist_error_ self) = Ok scaled /\
    head 3 scaled = Ok pos_head /\
    maxCoeff (cwiseAbs pos_head) = Ok pos_error /\
    tail 3 scaled = Ok rot_tail /\
    maxCoeff (cwiseAbs rot_tail) = Ok orientation_error /\
    cwise PrimFloat.leb (final_twist_error self (last P []))
      (tool_goal_tolerance_ self) = Ok within /\
    out = {| this := after_computeCosts self (last P []);
             parameters := P;
             costs := repeat 0%float (cols P - 1)
                      ++ [(pos_error * position_cost_weight_ self
                           + orientation_error * orientation_cost_weight_ self)%float];
             validity := all within;
             returned := true |}.
Proof.
  unfold computeCosts; intros H.
  bind_inv H. bind_inv H.
  destruct (rightCols_last _ _ _ E E0) as [HP Hq]. subst x0.
  cbn [state_ group_name_ tool_link_ last_joint_pose_ last_tool_pose_
       tool_goal_pose_ tool_twist_error_ min_twist_error_ max_twist_error_
       position_cost_weight_ orientation_cost_weight_ tool_goal_tolerance_
       set_last_joint_pose_ set_state_ set_last_tool_pose_ set_tool_twist_error_] in H.
  fold (final_tool_pose self (last P [])) in H.
  fold (final_twist_error self (last P [])) in H.
  bind_inv H. bind_inv H. bind_inv H. bind_inv H. bind_inv H. bind_inv H. bind_inv H.
  apply write_last_Constant in E6 as [Hn ->].
  injection H as <-.
  exists x0, x1, x2, x3, x4, x6; repeat split; try assumption.
  intros ->; simpl in Hn; lia.
Qed.

(** A call returns as soon as the trajectory has a column and the vectors
    involved have the six cartesian degrees of freedom. *)
Lemma computeCosts_returns :
  P <> [] -> six_dof self (last P []) ->
  exists out,
    computeCosts self P start_timestep num_timesteps iteration_number rollout_number
      costs0 validity0 = Ok out.
Proof.
  intros HP (Ht & Hmin & Hmax & Htol); unfold CARTESIAN_DOF_SIZE in *.
  unfold computeCosts.
  destruct (rightCols_defined P HP) as (q & -> & Hq); cbn [bind as_vector].
  cbn [state_ group_name_ tool_link_ last_joint_pose_ last_tool_pose_
       tool_goal_pose_ tool_twist_error_ min_twist_error_ max_twist_error_
       position_cost_weight_ orientation_cost_weight_ tool_goal_tolerance_
       set_last_joint_pose_ set_state_ set_last_tool_pose_ set_tool_twist_error_].
  fold (final_tool_pose self q). fold (final_twist_error self q).
  rewrite Hq in *.
  destruct (compute_scaled_error_defined (final_twist_error self q)
              (min_twist_error_ self) (max_twist_error_ self)) as [scaled Hs];
    [congruence | congruence |].
  rewrite Hs; cbn [bind].
  apply compute_scaled_error_length in Hs as (Hl & _ & _).
  rewrite head_defined, tail_defined by lia; cbn [bind].
  destruct (maxCoeff_defined (cwiseAbs (firstn 3 scaled))) as [pos_error ->].
  { intros H; apply (f_equal (@length _)) in H.
    unfold cwiseAbs in H; rewrite length_map, length_firstn in H; cbn [length] in H; lia. }
  cbn [bind].
  destruct (maxCoeff_defined (cwiseAbs (skipn (length scaled - 3) scaled)))
    as [orientation_error ->].
  { intros H; apply (f_equal (@length _)) in H.
    unfold cwiseAbs in H; rewrite length_map, length_skipn in H; cbn [length] in H; lia. }
  cbn [bind].
  destruct (write_last_Constant_defined (cols P) 0%float
              (pos_error * position_cost_weight_ self
               + orientation_error * orientation_cost_weight_ self)%float)
    as [c ->].
  { unfold cols; destruct P; [congruence | simpl; lia]. }
  cbn [bind].
  destruct (cwise_defined PrimFloat.leb (final_twist_error self q)
              (tool_goal_tolerance_ self)) as [within ->]; [congruence |].
  cbn [bind]. eexists; reflexivity.
Qed.

(** On a trajectory without columns the call stops at [rightCols(1)]. *)
Lemma computeCosts_empty_trajectory :
  computeCosts self [] start_timestep num_timesteps iteration_number rollout_number
    costs0 validity0 = Fail eigen_assert.
Proof. reflexivity. Qed.

(** What the caller receives is computed from the trajectory, the twist error
    of its last column, the error range, the tolerance and the two weights. *)
Lemma outputs_computeCosts :
  outputs
    (computeCosts self P start_timestep num_timesteps iteration_number
       rollout_number costs0 validity0)
  = (right_col <- rightCols 1 P ;;
     q <- as_vector right_col ;;
     scaled <- compute_scaled_error (final_twist_error self q)
                 (min_twist_error_ self) (max_twist_error_ self) ;;
     pos_head <- head 3 scaled ;;
     pos_error <- maxCoeff (cwiseAbs pos_head) ;;
     rot_tail <- tail 3 scaled ;;
     orientation_error <- maxCoeff (cwiseAbs rot_tail) ;;
     c <- write_coeff (Constant (cols P) 0%float)
            (size (Constant (cols P) 0%float) - 1)
            (pos_error * position_cost_weight_ self
             + orientation_error * orientation_cost_weight_ self)%float ;;
     within <- cwise PrimFloat.leb (final_twist_error self q)
                 (tool_goal_tolerance_ self) ;;
     Ok (c, all within, true)).
Proof.
  unfold outputs, computeCosts.
  destruct (rightCols 1 P) as [rc |]; cbn [bind]; [| reflexivity].
  destruct (as_vector rc) as [q |]; cbn [bind]; [| reflexivity].
  cbn [state_ group_name_ tool_link_ last_joint_pose_ last_tool_pose_
       tool_goal_pose_ tool_twist_error_ min_twist_error_ max_twist_error_
       position_cost_weight_ orientation_cost_weight_ tool_goal_tolerance_
       set_last_joint_pose_ set_state_ set_last_tool_pose_ set_tool_twist_error_].
  fold (final_tool_pose self q). fold (final_twist_error self q).
  repeat match goal with
         | |- context [bind ?r _] =>
             match r with
             | bind _ _ => fail 1
             | _ => destruct r; cbn [bind]; [| reflexivity]
             end
         end.
  reflexivity.
Qed.

Local Abbreviation call :=
  (computeCosts self P start_timestep num_timesteps iteration_number rollout_number
     costs0 validity0).

(** C1 (as amended): for a trajectory that has a column, the vectors involved
    having the six cartesian degrees of freedom, [computeCosts] returns a
    cost vector with one entry per column of the trajectory matrix; neither
    [start_timestep] nor [num_timesteps] enters. *)
Theorem computeCosts_costs_length :
  P <> [] -> six_dof self (last P []) ->
  exists out, call = Ok out /\ length (costs out) = cols P.
Proof.
  intros HP H6. destruct (computeCosts_returns HP H6) as [out H].
  exists out; split; [exact H |].
  destruct (computeCosts_Ok out H)
    as (s & ph & pe & rt & oe & w & _ & _ & _ & _ & _ & _ & _ & ->).
  cbn [costs]. rewrite length_app, repeat_length; cbn [length].
  unfold cols in *; destruct P; [congruence | simpl; lia].
Qed.

(** C2: for a trajectory that has a column, the vectors involved having the
    six cartesian degrees of freedom, [computeCosts] returns a cost vector
    whose every entry but the last is zero, and whose last entry is the scaled
    position error times [position_cost_weight_] plus the scaled orientation
    error times [orientation_cost_weight_]; the two errors are the largest
    absolute values among the first three and the last three components of
    the scaled twist error. *)
Theorem computeCosts_costs_entries :
  P <> [] -> six_dof self (last P []) ->
  exists out scaled pos_head pos_error rot_tail orientation_error,
    call = Ok out /\
    compute_scaled_error (final_twist_error self (last P []))
      (min_twist_error_ self) (max_twist_error_ self) = Ok scaled /\
    head 3 scaled = Ok pos_head /\
    maxCoeff (cwiseAbs pos_head) = Ok pos_error /\
    tail 3 scaled = Ok rot_tail /\
    maxCoeff (cwiseAbs rot_tail) = Ok orientation_error /\
    (forall t, (t < cols P - 1)%nat -> nth_error (costs out) t = Some 0%float) /\
    nth_error (costs out) (cols P - 1)
    = Some (pos_error * position_cost_weight_ self
            + orientation_error * orientation_cost_weight_ self)%float.
Proof.
  intros HP H6. destruct (computeCosts_returns HP H6) as [out H].
  destruct (computeCosts_Ok out H)
    as (s & ph & pe & rt & oe & w & _ & Hs & Hph & Hpe & Hrt & Hoe & _ & Eout).
  exists out, s, ph, pe, rt, oe; repeat split; try assumption;
    rewrite Eout; cbn [costs].
  - intros t Ht. rewrite nth_error_app1 by (rewrite repeat_length; lia).
    apply nth_error_repeat; lia.
  - rewrite nth_error_app2 by (rewrite repeat_length; lia).
    rewrite repeat_length, Nat.sub_diag; reflexivity.
Qed.

(** C4: for a trajectory that has a column, the vectors involved having the
    six cartesian degrees of freedom, [computeCosts] returns and the
    trajectory matrix is then the one it was given. *)
Theorem computeCosts_parameters_unchanged :
  P <> [] -> six_dof self (last P []) ->
  exists out, call = Ok out /\ parameters out = P.
Proof.
  intros HP H6. destruct (computeCosts_returns HP H6) as [out H].
  exists out; split; [exact H |].
  destruct (computeCosts_Ok out H)
    as (s & ph & pe & rt & oe & w & _ & _ & _ & _ & _ & _ & _ & ->).
  reflexivity.
Qed.

(** C5: [computeCosts] never returns [false]: a call that returns returns
    [true], and a trajectory that misses the goal is reported through
    [validity] alone, which is [false] exactly when some component of the
    twist error from the tool pose at the last column to the goal pose is
    not less than or equal to the same component of the goal tolerance.
    The call does return for every trajectory that has a column when the
    vectors involved have the six cartesian degrees of freedom. *)
Theorem computeCosts_returns_true :
  (forall out,
     call = Ok out ->
     returned out = true /\
     (validity out = false <->
      exists i, (i < length (final_twist_error self (last P [])))%nat /\
        PrimFloat.leb (nth i (final_twist_error self (last P [])) 0%float)
          (nth i (tool_goal_tolerance_ self) 0%float) = false)) /\
  (P <> [] -> six_dof self (last P []) ->
   exists out,
     call = Ok out /\ returned out = true /\
     (validity out = false <->
      exists i, (i < CARTESIAN_DOF_SIZE)%nat /\
        PrimFloat.leb (nth i (final_twist_error self (last P [])) 0%float)
          (nth i (tool_goal_tolerance_ self) 0%float) = false)).
Proof.
  assert (Hret : forall out,
     call = Ok out ->
     returned out = true /\
     (validity out = false <->
      exists i, (i < length (final_twist_error self (last P [])))%nat /\
        PrimFloat.leb (nth i (final_twist_error self (last P [])) 0%float)
          (nth i (tool_goal_tolerance_ self) 0%float) = false)).
  { intros out H.
    destruct (computeCosts_Ok out H)
      as (s & ph & pe & rt & oe & w & _ & _ & _ & _ & _ & _ & Hw & ->).
    cbn [returned validity]. split; [reflexivity |].
    destruct (cwise_length _ _ _ _ Hw) as [Hl1 Hl2].
    rewrite all_false_nth, Hl1. split; intros (i & Hi & Hn); exists i; (split; [exact Hi |]).
    - rewrite <- (cwise_nth _ _ _ _ 0%float 0%float true i Hw Hi). exact Hn.
    - rewrite (cwise_nth _ _ _ _ 0%float 0%float true i Hw Hi). exact Hn. }
  split; [exact Hret |].
  intros HP H6. destruct (computeCosts_returns HP H6) as [out Hout].
  destruct (Hret out Hout) as [Htrue Hvalid].
  destruct H6 as (Ht & _). rewrite Ht in Hvalid.
  exists out; split; [exact Hout |]. split; [exact Htrue | exact Hvalid].
Qed.

(** C9: for a trajectory that has a column, the vectors involved having the
    six cartesian degrees of freedom, [computeCosts] returns; the twist error
    it has stored is the twist from the tool pose at the last column of the
    trajectory to the goal pose, and [validity] is [true] exactly when each of
    its six components is less than or equal to the same component of the
    goal tolerance. *)
Theorem computeCosts_validity :
  P <> [] -> six_dof self (last P []) ->
  exists out,
    call = Ok out /\
    tool_twist_error_ (this out) = final_twist_error self (last P []) /\
    (validity out = true <->
     forall i, (i < CARTESIAN_DOF_SIZE)%nat ->
       PrimFloat.leb (nth i (tool_twist_error_ (this out)) 0%float)
         (nth i (tool_goal_tolerance_ self) 0%float) = true).
Proof.
  intros HP H6. destruct (computeCosts_returns HP H6) as [out H].
  exists out; split; [exact H |].
  destruct (computeCosts_Ok out H)
    as (s & ph & pe & rt & oe & w & _ & _ & _ & _ & _ & _ & Hw & ->).
  cbn [this validity after_computeCosts tool_twist_error_ set_tool_twist_error_].
  destruct H6 as (Ht & _ & _ & _).
  destruct (cwise_length _ _ _ _ Hw) as [Hl1 Hl2].
  split; [reflexivity |].
  rewrite all_nth, <- Hl1, Ht. split; intros Hall i Hi.
  - rewrite <- (cwise_nth _ _ _ _ 0%float 0%float true i Hw) by lia. apply Hall, Hi.
  - rewrite (cwise_nth _ _ _ _ 0%float 0%float true i Hw) by lia. apply Hall, Hi.
Qed.

End ComputeCostsFacts.

(** ** Determinism of computeCosts *)

Section Determinism.

Context {collaborators : Collaborators}.

Lemma same_configuration_twist (a b : ToolGoalPose) (q : VectorXd) :
  same_configuration a b -> final_twist_error a q = final_twist_error b q.
Proof.
  intros S; unfold final_twist_error.
  rewrite (same_kinematics a b S), (same_goal a b S); reflexivity.
Qed.

(** Objects with the same robot state, group, tool link, goal, tolerances,
    error range and weights are configured alike. *)
Lemma same_fields_same_configuration (a b : ToolGoalPose) :
  state_ a = state_ b -> group_name_ a = group_name_ b ->
  tool_link_ a = tool_link_ b ->
  tool_goal_pose_ a = tool_goal_pose_ b ->
  tool_goal_tolerance_ a = tool_goal_tolerance_ b ->
  min_twist_error_ a = min_twist_error_ b ->
  max_twist_error_ a = max_twist_error_ b ->
  position_cost_weight_ a = position_cost_weight_ b ->
  orientation_cost_weight_ a = orientation_cost_weight_ b ->
  same_configuration a b.
Proof.
  intros Hs Hg Hl; split; try assumption.
  intros q; unfold final_tool_pose; rewrite Hs, Hg, Hl; reflexivity.
Qed.

(** A call leaves the object configured as it was. *)
Lemma same_configuration_after_computeCosts (self : ToolGoalPose) (q : VectorXd) :
  group_positions_overwritten ->
  same_configuration (after_computeCosts self q) self.
Proof.
  intros Hover; split; try reflexivity.
  intros q'; unfold final_tool_pose, after_computeCosts; cbn. apply Hover.
Qed.

(** C3: on objects configured alike, two calls with the same trajectory
    matrix give the same costs, validity and returned flag (or fail alike),
    whatever the timestep range, the iteration and rollout numbers and the
    previous contents of the output arguments. *)
Theorem computeCosts_deterministic (a b : ToolGoalPose) (P : MatrixXd)
  (start1 num1 start2 num2 : N) (iteration1 rollout1 iteration2 rollout2 : Z)
  (costs1 costs2 : VectorXd) (validity1 validity2 : bool) :
  same_configuration a b ->
  outputs (computeCosts a P start1 num1 iteration1 rollout1 costs1 validity1)
  = outputs (computeCosts b P start2 num2 iteration2 rollout2 costs2 validity2).
Proof.
  intros S. rewrite !outputs_computeCosts.
  destruct (rightCols 1 P) as [rc |]; cbn [bind]; [| reflexivity].
  destruct (as_vector rc) as [q |]; cbn [bind]; [| reflexivity].
  rewrite (same_configuration_twist a b q S).
  rewrite (same_min a b S), (same_max a b S), (same_tolerance a b S).
  rewrite (same_position_weight a b S), (same_orientation_weight a b S).
  reflexivity.
Qed.

(** The same holds for a second call on the object a first call has left,
    whatever trajectory the first call scored. *)
Lemma computeCosts_after_computeCosts (self : ToolGoalPose) (P P' : MatrixXd)
  (start1 num1 start2 num2 : N) (iteration1 rollout1 iteration2 rollout2 : Z)
  (costs1 costs2 : VectorXd) (validity1 validity2 : bool)
  (out : computeCosts_exit) :
  group_positions_overwritten ->
  computeCosts self P' start1 num1 iteration1 rollout1 costs1 validity1 = Ok out ->
  outputs (computeCosts (this out) P start2 num2 iteration2 rollout2 costs2 validity2)
  = outputs (computeCosts self P start2 num2 iteration2 rollout2 costs2 validity2).
Proof.
  intros Hover H.
  destruct (computeCosts_Ok _ _ _ _ _ _ _ _ out H)
    as (s & ph & pe & rt & oe & w & _ & _ & _ & _ & _ & _ & _ & ->).
  cbn [this].
  pose proof (same_configuration_after_computeCosts self (last P' []) Hover) as S.
  rewrite !outputs_computeCosts.
  destruct (rightCols 1 P) as [rc |]; cbn [bind]; [| reflexivity].
  destruct (as_vector rc) as [q |]; cbn [bind]; [| reflexivity].
  rewrite (same_configuration_twist _ _ q S).
  reflexivity.
Qed.

End Determinism.

(** ** configure *)

Section ConfigureFacts.

Context {collaborators : Collaborators}.

(** C6: [configure] returns [false] when the conversion of either weight
    throws an [XmlRpcException]; when both convert it returns [true], stores
    the two weights and stores their sum as the total weight. *)
Theorem configure_result (self : ToolGoalPose) (config : XmlRpcValue) :
  ((exists m, member_as_double config "position_cost_weight" = Throws m) \/
   (exists m, member_as_double config "orientation_cost_weight" = Throws m) ->
   snd (configure self config) = false) /\
  (forall p o,
     member_as_double config "position_cost_weight" = Value p ->
     member_as_double config "orientation_cost_weight" = Value o ->
     snd (configure self config) = true /\
     position_cost_weight_ (fst (configure self config)) = p /\
     orientation_cost_weight_ (fst (configure self config)) = o /\
     cost_weight_ (fst (configure self config)) = (p + o)%float).
Proof.
  unfold configure; split.
  - intros [[m Hm] | [m Hm]]; rewrite Hm.
    + reflexivity.
    + destruct (member_as_double config "position_cost_weight"); reflexivity.
  - intros p o Hp Ho; rewrite Hp, Ho; cbn. repeat split; reflexivity.
Qed.

End ConfigureFacts.

(** ** setMotionPlanRequest *)

Section SetMotionPlanRequestFacts.

Context {collaborators : Collaborators}.

(** C10: a request without goal constraints, and a request whose first goal
    constraint neither validates as a cartesian constraint nor has joint
    constraints, makes [setMotionPlanRequest] return [false] with
    [error_code.val] set to [INVALID_GOAL_CONSTRAINTS]. *)
Theorem setMotionPlanRequest_invalid_goal (self : ToolGoalPose)
  (planning_scene : PlanningScene) (req : MotionPlanRequest)
  (config : StompConfiguration) (error_code : MoveItErrorCodes) :
  goal_constraints req = [] \/
  (exists g rest, goal_constraints req = g :: rest /\
                  validateCartesianConstraints g = false /\
                  joint_constraints g = []) ->
  exists self' error_code',
    setMotionPlanRequest self planning_scene req config error_code
    = Ok (self', error_code', false) /\
    val error_code' = INVALID_GOAL_CONSTRAINTS.
Proof.
  unfold setMotionPlanRequest.
  intros [Hempty | (g & rest & Hg & Hcart & Hjoint)].
  - rewrite Hempty. eexists _, _; split; reflexivity.
  - rewrite Hg; cbn [goals_loop]. rewrite Hcart; cbn [negb].
    rewrite Hjoint. eexists _, _; split; reflexivity.
Qed.

End SetMotionPlanRequestFacts.

(** * The gantry: evaluations *)

Section GantryFacts.

Import Gantry.

(** [setMotionPlanRequest] with a joint goal yields the evaluator. *)
Lemma evaluator_planned (x : float) (error_code : MoveItErrorCodes) :
  setMotionPlanRequest unplanned tt (move_x x) tt error_code
  = Ok (evaluator [x; 0; 0; 0; 0; 0]%float, error_code, true).
Proof. reflexivity. Qed.

Lemma gantry_positions_overwritten : group_positions_overwritten.
Proof. intros s g l q q'; reflexivity. Qed.

(** C1, counterexample: asked to score two timesteps of a trajectory of
    three columns, [computeCosts] returns three costs. *)
Lemma computeCosts_costs_length_counterexample :
  exists out,
    computeCosts (evaluator one_off) stay_home 0 2 0 0 [] false = Ok out /\
    length (costs out) <> N.to_nat 2.
Proof. eexists; split; [reflexivity | cbn; discriminate]. Qed.

Lemma computeCosts_costs_length_witness :
  stay_home <> [] /\ six_dof (evaluator one_off) (last stay_home []) /\
  exists out,
    computeCosts (evaluator one_off) stay_home 0 2 0 0 [] false = Ok out /\
    length (costs out) = cols stay_home.
Proof.
  assert (HP : stay_home <> []) by discriminate.
  assert (H6 : six_dof (evaluator one_off) (last stay_home []))
    by (repeat split; reflexivity).
  split; [exact HP |]. split; [exact H6 |].
  exact (computeCosts_costs_length (evaluator one_off) stay_home 0 2 0 0 [] false
           HP H6).
Defined.

Lemma computeCosts_costs_entries_witness :
  stay_home <> [] /\ six_dof (evaluator one_off) (last stay_home []) /\
  exists out scaled pos_head pos_error rot_tail orientation_error,
    computeCosts (evaluator one_off) stay_home 0 3 0 0 [] false = Ok out /\
    compute_scaled_error (final_twist_error (evaluator one_off) (last stay_home []))
      (min_twist_error_ (evaluator one_off)) (max_twist_error_ (evaluator one_off))
    = Ok scaled /\
    head 3 scaled = Ok pos_head /\
    maxCoeff (cwiseAbs pos_head) = Ok pos_error /\
    tail 3 scaled = Ok rot_tail /\
    maxCoeff (cwiseAbs rot_tail) = Ok orientation_error /\
    (forall t, (t < cols stay_home - 1)%nat ->
               nth_error (costs out) t = Some 0%float) /\
    nth_error (costs out) (cols stay_home - 1)
    = Some (pos_error * position_cost_weight_ (evaluator one_off)
            + orientation_error * orientation_cost_weight_ (evaluator one_off))%float.
Proof.
  assert (HP : stay_home <> []) by discriminate.
  assert (H6 : six_dof (evaluator one_off) (last stay_home []))
    by (repeat split; reflexivity).
  split; [exact HP |]. split; [exact H6 |].
  exact (computeCosts_costs_entries (evaluator one_off) stay_home 0 3 0 0 [] false
           HP H6).
Defined.

Lemma computeCosts_deterministic_witness :
  same_configuration (evaluator one_off) (after_computeCosts (evaluator one_off) home) /\
  outputs (computeCosts (evaluator one_off) stay_home 0 3 1 1 [] false)
  = outputs (computeCosts (after_computeCosts (evaluator one_off) home) stay_home
               1 2 7 4 [1%float] true).
Proof.
  assert (S : same_configuration (evaluator one_off)
                (after_computeCosts (evaluator one_off) home)).
  { split; try reflexivity. }
  split; [exact S |].
  exact (computeCosts_deterministic (evaluator one_off)
           (after_computeCosts (evaluator one_off) home) stay_home
           0 3 1 2 1 1 7 4 [] [1%float] false true S).
Defined.

Lemma computeCosts_parameters_unchanged_witness :
  stay_home <> [] /\ six_dof (evaluator one_off) (last stay_home []) /\
  exists out,
    computeCosts (evaluator one_off) stay_home 0 3 0 0 [] false = Ok out /\
    parameters out = stay_home.
Proof.
  assert (HP : stay_home <> []) by discriminate.
  assert (H6 : six_dof (evaluator one_off) (last stay_home []))
    by (repeat split; reflexivity).
  split; [exact HP |]. split; [exact H6 |].
  exact (computeCosts_parameters_unchanged (evaluator one_off) stay_home 0 3 0 0 []
           false HP H6).
Defined.

Lemma computeCosts_returns_true_witness :
  stay_home <> [] /\ six_dof (evaluator one_off) (last stay_home []) /\
  exists out,
    computeCosts (evaluator one_off) stay_home 0 3 0 0 [] false = Ok out /\
    returned out = true /\
    validity out = false /\
    exists i, (i < CARTESIAN_DOF_SIZE)%nat /\
      PrimFloat.leb (nth i (final_twist_error (evaluator one_off) (last stay_home [])) 0%float)
        (nth i (tool_goal_tolerance_ (evaluator one_off)) 0%float) = false.
Proof.
  assert (HP : stay_home <> []) by discriminate.
  assert (H6 : six_dof (evaluator one_off) (last stay_home []))
    by (repeat split; reflexivity).
  split; [exact HP |]. split; [exact H6 |].
  destruct (proj2 (computeCosts_returns_true (evaluator one_off) stay_home 0 3 0 0 []
                     false) HP H6) as (out & Hout & Htrue & Hvalid).
  assert (Hmiss : validity out = false).
  { assert (E : computeCosts (evaluator one_off) stay_home 0 3 0 0 [] false
                = Ok {| this := after_computeCosts (evaluator one_off) home;
                        parameters := stay_home;
                        costs := [0; 0; 110.99999999999999]%float;
                        validity := false;
                        returned := true |}) by reflexivity.
    rewrite E in Hout. injection Hout as <-. reflexivity. }
  exists out; split; [exact Hout |]. split; [exact Htrue |].
  split; [exact Hmiss | exact (proj1 Hvalid Hmiss)].
Defined.

Lemma computeCosts_validity_witness :
  stay_home <> [] /\ six_dof (evaluator home) (last stay_home []) /\
  exists out,
    computeCosts (evaluator home) stay_home 0 3 0 0 [] false = Ok out /\
    tool_twist_error_ (this out) = final_twist_error (evaluator home) (last stay_home []) /\
    (validity out = true <->
     forall i, (i < CARTESIAN_DOF_SIZE)%nat ->
       PrimFloat.leb (nth i (tool_twist_error_ (this out)) 0%float)
         (nth i (tool_goal_tolerance_ (evaluator home)) 0%float) = true).
Proof.
  assert (HP : stay_home <> []) by discriminate.
  assert (H6 : six_dof (evaluator home) (last stay_home []))
    by (repeat split; reflexivity).
  split; [exact HP |]. split; [exact H6 |].
  exact (computeCosts_validity (evaluator home) stay_home 0 3 0 0 [] false HP H6).
Defined.

Lemma configure_result_witness :
  snd (configure unplanned weight_as_string) = false /\
  snd (configure unplanned weights_2_3) = true /\
  cost_weight_ (fst (configure unplanned weights_2_3)) = 5%float.
Proof.
  split.
  - apply (configure_result unplanned weight_as_string).
    right; exists "type error"%string; reflexivity.
  - destruct (configure_result unplanned weights_2_3) as [_ H].
    destruct (H 2%float 3%float eq_refl eq_refl) as (Ht & _ & _ & Hsum).
    split; [exact Ht | exact Hsum].
Defined.

Lemma setMotionPlanRequest_invalid_goal_witness :
  (exists self' error_code',
     setMotionPlanRequest unplanned tt no_goal tt {| val := 0 |}
     = Ok (self', error_code', false) /\ val error_code' = (-16)%Z) /\
  (exists self' error_code',
     setMotionPlanRequest unplanned tt empty_goal tt {| val := 0 |}
     = Ok (self', error_code', false) /\ val error_code' = (-16)%Z).
Proof.
  split.
  - apply (setMotionPlanRequest_invalid_goal unplanned tt no_goal tt {| val := 0 |}).
    left; reflexivity.
  - apply (setMotionPlanRequest_invalid_goal unplanned tt empty_goal tt {| val := 0 |}).
    right. exists {| cartesian := None; joints := [] |}, []. repeat split.
Defined.

(** C8, evaluation: with the default error range and unit weights, a tool that
    ends one unit short of the goal along the first axis gets a scaled twist
    error of about 111 on that axis and a final cost of about 111, above the
    sum 2 of the weights.  The clip of line 188 to [max] is overwritten by
    line 189, which selects from [val] again. *)
Theorem scaled_error_exceeds_one :
  cwise PrimFloat.ltb (min_twist_error_ (evaluator one_off))
    (max_twist_error_ (evaluator one_off)) = Ok (repeat true 6) /\
  PrimFloat.leb 0 (position_cost_weight_ (evaluator one_off)) = true /\
  PrimFloat.leb 0 (orientation_cost_weight_ (evaluator one_off)) = true /\
  final_twist_error (evaluator one_off) (last stay_home []) = [1; 0; 0; 0; 0; 0]%float /\
  compute_scaled_error [1; 0; 0; 0; 0; 0]%float
    (min_twist_error_ (evaluator one_off)) (max_twist_error_ (evaluator one_off))
  = Ok [110.99999999999999; 0; 0; 0; 0; 0]%float /\
  PrimFloat.ltb 1 110.99999999999999 = true /\
  outputs (computeCosts (evaluator one_off) stay_home 0 3 0 0 [] false)
  = Ok ([0; 0; 110.99999999999999]%float, false, true) /\
  PrimFloat.ltb
    (position_cost_weight_ (evaluator one_off)
     + orientation_cost_weight_ (evaluator one_off)) 110.99999999999999 = true.
Proof. repeat split; reflexivity. Qed.

(** C7, evaluation: with the default error range (each [max] above its [min])
    and unit weights, the finite twist error 1e308 along the first axis is
    not clipped to [max]; its scaled value overflows and the final cost is
    [infinity]. *)
Theorem cost_overflows_to_infinity :
  cwise gt (max_twist_error_ (evaluator far_off))
    (min_twist_error_ (evaluator far_off)) = Ok (repeat true 6) /\
  final_twist_error (evaluator far_off) (last stay_home []) = far_off /\
  forallb is_finite far_off = true /\
  outputs (computeCosts (evaluator far_off) stay_home 0 3 0 0 [] false)
  = Ok ([0; 0; infinity]%float, false, true) /\
  is_finite infinity = false.
Proof. repeat split; reflexivity. Qed.

End GantryFacts.

(** * Further properties *)

(** ** Zeros of binary64 arithmetic *)

Lemma is_zero_spec (x : float) :
  is_zero x = match Prim2SF x with S754_zero _ => true | _ => false end.
Proof.
  unfold is_zero. rewrite FloatAxioms.eqb_spec.
  change (Prim2SF zero) with (S754_zero false).
  destruct (Prim2SF x) as [s | s | | s m e]; try reflexivity; destruct s; reflexivity.
Qed.

Lemma is_nan_spec (x : float) :
  is_nan x = match Prim2SF x with S754_nan => true | _ => false end.
Proof.
  unfold is_nan. rewrite FloatAxioms.eqb_spec. unfold SFeqb.
  destruct (Prim2SF x) as [s | s | | s m e]; try reflexivity.
  - destruct s; reflexivity.
  - simpl. destruct s; rewrite Z.compare_refl, Pos.compare_cont_refl; reflexivity.
Qed.

Lemma is_finite_spec (x : float) :
  is_finite x
  = match Prim2SF x with S754_zero _ | S754_finite _ _ _ => true | _ => false end.
Proof.
  unfold is_finite. rewrite is_nan_spec. unfold is_infinity.
  rewrite FloatAxioms.eqb_spec, abs_spec.
  change (Prim2SF infinity) with (S754_infinity false).
  destruct (Prim2SF x) as [s | s | | s m e]; reflexivity.
Qed.

(** [x - y] is a zero when [x] equals the finite [y]. *)
Lemma sub_eq_zero (x y : float) :
  is_finite y = true -> PrimFloat.eqb x y = true -> is_zero (x - y) = true.
Proof.
  rewrite is_finite_spec, FloatAxioms.eqb_spec, is_zero_spec, sub_spec.
  unfold SFeqb, SF64sub.
  destruct (Prim2SF x) as [sx | sx | | sx mx ex], (Prim2SF y) as [sy | sy | | sy my ey];
    simpl; intros Hfin Heq; try discriminate;
    try (destruct sx; discriminate); try (destruct sy; discriminate).
  - destruct sx, sy; reflexivity.
  - assert (sx = sy /\ ex = ey /\ mx = my) as (-> & -> & ->).
    { destruct sx, sy; try discriminate;
        destruct (Z.compare ex ey) eqn:He; try discriminate;
        destruct (Pos.compare_cont Eq mx my) eqn:Hm; try discriminate;
        apply Z.compare_eq in He; apply Pos.compare_eq in Hm; auto. }
    rewrite Z.sub_diag; reflexivity.
Qed.

Lemma leb_not_ltb_eqb (x y : float) :
  PrimFloat.leb x y = true -> PrimFloat.ltb x y = false -> PrimFloat.eqb x y = true.
Proof.
  rewrite leb_spec, ltb_spec, FloatAxioms.eqb_spec. unfold SFleb, SFltb, SFeqb.
  destruct (SFcompare (Prim2SF x) (Prim2SF y)) as [[ | | ] | ]; congruence.
Qed.

Lemma eqb_refl_finite (x : float) : is_finite x = true -> PrimFloat.eqb x x = true.
Proof.
  intros H. unfold is_finite in H. apply negb_true_iff, orb_false_iff in H as [H _].
  unfold is_nan in H. apply negb_false_iff in H. exact H.
Qed.

Lemma div_zero (a r : float) :
  is_zero a = true -> is_nan r = false -> is_zero r = false -> is_zero (a / r) = true.
Proof.
  rewrite !is_zero_spec, is_nan_spec, div_spec. unfold SF64div.
  destruct (Prim2SF a) as [sa | sa | | sa ma ea], (Prim2SF r) as [sr | sr | | sr mr er];
    simpl; congruence.
Qed.

Lemma abs_zero (a : float) : is_zero a = true -> is_zero (abs a) = true.
Proof.
  rewrite !is_zero_spec, abs_spec.
  destruct (Prim2SF a); simpl; congruence.
Qed.

Lemma mul_zero (a w : float) :
  is_zero a = true -> is_finite w = true -> is_zero (a * w) = true.
Proof.
  rewrite !is_zero_spec, is_finite_spec, mul_spec. unfold SF64mul.
  destruct (Prim2SF a) as [sa | sa | | sa ma ea], (Prim2SF w) as [sr | sr | | sr mr er];
    simpl; congruence.
Qed.

Lemma add_zero (a b : float) :
  is_zero a = true -> is_zero b = true -> is_zero (a + b) = true.
Proof.
  rewrite !is_zero_spec, add_spec. unfold SF64add.
  destruct (Prim2SF a) as [sa | sa | | sa ma ea], (Prim2SF b) as [sr | sr | | sr mr er];
    simpl; try congruence. destruct sa, sr; reflexivity.
Qed.

(** The largest of zeros is a zero. *)
Lemma maxCoeff_zero (v : VectorXd) (x : float) :
  Forall (fun c => is_zero c = true) v -> maxCoeff v = Ok x -> is_zero x = true.
Proof.
  destruct v as [| c rest]; [discriminate |]. simpl.
  intros H E; injection E as <-. inversion H as [| ? ? Hc Hrest]; subst.
  clear H. revert c Hc. induction Hrest as [| d rest Hd _ IH]; intros c Hc; simpl.
  - exact Hc.
  - apply IH. destruct (gt d c); assumption.
Qed.

(** ** compute_scaled_error: when it returns, and what it returns *)

(** X1: component [i] of the scaled error is [val i], raised to [min i] when
    it is below it, less [min i], divided by [max i - min i].  A value
    above [max i] is not lowered to it. *)
Theorem compute_scaled_error_component (val min max scaled : VectorXd) (i : nat) :
  compute_scaled_error val min max = Ok scaled -> (i < length val)%nat ->
  nth_error scaled i
  = Some (((if PrimFloat.ltb (nth i val 0) (nth i min 0)
            then nth i min 0 else nth i val 0)
           - nth i min 0) / (nth i max 0 - nth i min 0))%float.
Proof.
  intros H Hi.
  destruct (compute_scaled_error_length _ _ _ _ H) as (Hl & _ & _).
  rewrite <- (compute_scaled_error_nth _ _ _ _ i H) by lia.
  apply nth_error_nth'. lia.
Qed.

(** Where the twist error is within the tolerance [min], the scaled error is
    a zero. *)
Lemma compute_scaled_error_zero (val min max scaled : VectorXd) :
  compute_scaled_error val min max = Ok scaled ->
  forallb is_finite min = true -> proper_range min max = true ->
  (forall i, (i < length val)%nat ->
     PrimFloat.leb (nth i val 0%float) (nth i min 0%float) = true) ->
  Forall (fun c => is_zero c = true) scaled.
Proof.
  intros H Hfin Hrange Hle.
  destruct (compute_scaled_error_length _ _ _ _ H) as (Hl & Hmin & Hmax).
  apply Forall_nth; intros i d Hi.
  rewrite (nth_indep _ d 0%float Hi), (compute_scaled_error_nth _ _ _ _ i H Hi).
  assert (Hm : is_finite (nth i min 0%float) = true).
  { rewrite forallb_forall in Hfin. apply Hfin, nth_In; lia. }
  assert (Hw : is_nan (nth i max 0 - nth i min 0)%float = false /\
               is_zero (nth i max 0 - nth i min 0)%float = false).
  { unfold proper_range in Hrange. rewrite forallb_forall in Hrange.
    assert (Hin : In (nth i min 0%float, nth i max 0%float) (combine min max)).
    { rewrite <- combine_nth by lia. apply nth_In; rewrite length_combine; lia. }
    apply Hrange in Hin; cbv beta zeta in Hin; cbn [fst snd] in Hin.
    apply andb_true_iff in Hin as [Hn Hz].
    apply negb_true_iff in Hn, Hz. split; assumption. }
  destruct Hw as [Hn Hz].
  assert (Hlen : (i < length val)%nat) by lia.
  specialize (Hle i Hlen).
  apply div_zero; [| exact Hn | exact Hz].
  destruct (PrimFloat.ltb (nth i val 0%float) (nth i min 0%float)) eqn:Hlt.
  - apply sub_eq_zero; [exact Hm | apply eqb_refl_finite, Hm].
  - apply sub_eq_zero; [exact Hm | apply leb_not_ltb_eqb; assumption].
Qed.

(** ** computeCosts: its domain, its frame and its zero *)

Lemma head_Forall (P : float -> Prop) (n : nat) (v h : VectorXd) :
  head n v = Ok h -> Forall P v -> Forall P h.
Proof.
  unfold head; destruct (n <=? length v)%nat; [| discriminate].
  intros E; injection E as <-. intros H.
  rewrite <- (firstn_skipn n v) in H. apply Forall_app in H. tauto.
Qed.

Lemma tail_Forall (P : float -> Prop) (n : nat) (v t : VectorXd) :
  tail n v = Ok t -> Forall P v -> Forall P t.
Proof.
  unfold tail; destruct (n <=? length v)%nat; [| discriminate].
  intros E; injection E as <-. intros H.
  rewrite <- (firstn_skipn (length v - n) v) in H. apply Forall_app in H. tauto.
Qed.

Lemma cwiseAbs_zero (v : VectorXd) :
  Forall (fun c => is_zero c = true) v ->
  Forall (fun c => is_zero c = true) (cwiseAbs v).
Proof.
  intros H; unfold cwiseAbs; apply Forall_map.
  revert H; apply Forall_impl; intros c; apply abs_zero.
Qed.

Section ComputeCostsDomain.

Context {collaborators : Collaborators}.

Variables (self : ToolGoalPose) (P : MatrixXd).
Variables (start_timestep num_timesteps : N).
Variables (iteration_number rollout_number : Z).
Variables (costs0 : VectorXd) (validity0 : bool).

Local Abbreviation call :=
  (computeCosts self P start_timestep num_timesteps iteration_number rollout_number
     costs0 validity0).

Local Abbreviation twist := (final_twist_error self (last P [])).

Lemma computeCosts_returns_sized :
  P <> [] -> (3 <= length twist)%nat ->
  length (min_twist_error_ self) = length twist ->
  length (max_twist_error_ self) = length twist ->
  length (tool_goal_tolerance_ self) = length twist ->
  exists out, call = Ok out.
Proof.
  intros HP H3 Hmin Hmax Htol.
  unfold computeCosts.
  destruct (rightCols_defined P HP) as (q & -> & Hq); cbn [bind as_vector].
  cbn [state_ group_name_ tool_link_ last_joint_pose_ last_tool_pose_
       tool_goal_pose_ tool_twist_error_ min_twist_error_ max_twist_error_
       position_cost_weight_ orientation_cost_weight_ tool_goal_tolerance_
       set_last_joint_pose_ set_state_ set_last_tool_pose_ set_tool_twist_error_].
  fold (final_tool_pose self q). fold (final_twist_error self q).
  rewrite Hq in *.
  destruct (compute_scaled_error_defined (final_twist_error self q)
              (min_twist_error_ self) (max_twist_error_ self)) as [scaled Hs];
    [assumption | assumption |].
  rewrite Hs; cbn [bind].
  apply compute_scaled_error_length in Hs as (Hl & _ & _).
  rewrite head_defined, tail_defined by lia; cbn [bind].
  destruct (maxCoeff_defined (cwiseAbs (firstn 3 scaled))) as [pos_error ->].
  { intros H; apply (f_equal (@length _)) in H.
    unfold cwiseAbs in H; rewrite length_map, length_firstn in H; cbn [length] in H; lia. }
  cbn [bind].
  destruct (maxCoeff_defined (cwiseAbs (skipn (length scaled - 3) scaled)))
    as [orientation_error ->].
  { intros H; apply (f_equal (@length _)) in H.
    unfold cwiseAbs in H; rewrite length_map, length_skipn in H; cbn [length] in H; lia. }
  cbn [bind].
  destruct (write_last_Constant_defined (cols P) 0%float
              (pos_error * position_cost_weight_ self
               + orientation_error * orientation_cost_weight_ self)%float)
    as [c ->].
  { unfold cols; destruct P; [congruence | simpl; lia]. }
  cbn [bind].
  destruct (cwise_defined PrimFloat.leb (final_twist_error self q)
              (tool_goal_tolerance_ self)) as [within ->]; [congruence |].
  cbn [bind]. eexists; reflexivity.
Qed.

(** X2: [computeCosts] returns exactly when the trajectory has a column, the
    twist error has at least three components, and the error range and the
    goal tolerance have as many components as the twist error. *)
Theorem computeCosts_returns_iff :
  (exists out, call = Ok out) <->
  P <> [] /\ (3 <= length twist)%nat /\
  length (min_twist_error_ self) = length twist /\
  length (max_twist_error_ self) = length twist /\
  length (tool_goal_tolerance_ self) = length twist.
Proof.
  split.
  - intros [out H].
    destruct (computeCosts_Ok _ _ _ _ _ _ _ _ out H)
      as (s & ph & pe & rt & oe & w & HP & Hs & Hph & _ & _ & _ & Hw & _).
    apply compute_scaled_error_length in Hs as (Hl & Hmin & Hmax).
    apply cwise_length in Hw as [Hw1 Hw2].
    unfold head in Hph. destruct (3 <=? length s)%nat eqn:H3; [| discriminate].
    apply Nat.leb_le in H3. repeat split; try assumption; lia.
  - intros (HP & H3 & Hmin & Hmax & Htol).
    apply computeCosts_returns_sized; assumption.
Qed.

(** A rollout reported valid costs nothing. *)
Lemma valid_costs_zero (out : computeCosts_exit) :
  call = Ok out ->
  min_twist_error_ self = tool_goal_tolerance_ self ->
  forallb is_finite (min_twist_error_ self) = true ->
  proper_range (min_twist_error_ self) (max_twist_error_ self) = true ->
  is_finite (position_cost_weight_ self) = true ->
  is_finite (orientation_cost_weight_ self) = true ->
  validity out = true ->
  forallb is_zero (costs out) = true.
Proof.
  intros H Htol Hfin Hrange Hpw How Hvalid.
  destruct (computeCosts_Ok _ _ _ _ _ _ _ _ out H)
    as (s & ph & pe & rt & oe & w & HP & Hs & Hph & Hpe & Hrt & Hoe & Hw & ->).
  cbn [validity costs] in *.
  assert (Hz : Forall (fun c => is_zero c = true) s).
  { apply (compute_scaled_error_zero _ _ _ _ Hs Hfin Hrange).
    intros i Hi. rewrite Htol.
    destruct (cwise_length _ _ _ _ Hw) as [Hl _].
    rewrite <- (cwise_nth _ _ _ _ 0%float 0%float true i Hw) by lia.
    apply all_nth; [exact Hvalid | lia]. }
  assert (Zpe : is_zero pe = true).
  { apply (maxCoeff_zero _ _ (cwiseAbs_zero _ (head_Forall _ _ _ _ Hph Hz)) Hpe). }
  assert (Zoe : is_zero oe = true).
  { apply (maxCoeff_zero _ _ (cwiseAbs_zero _ (tail_Forall _ _ _ _ Hrt Hz)) Hoe). }
  rewrite forallb_app; apply andb_true_iff; split.
  - apply forallb_forall; intros c Hc. apply repeat_spec in Hc; subst c; reflexivity.
  - cbn [forallb]. rewrite andb_true_r.
    apply add_zero; apply mul_zero; assumption.
Qed.

(** X3: when the lower end of the error range is the goal tolerance and is
    finite, the widths of the range are numbers other than zero and the two
    weights are finite, a rollout that [computeCosts] reports valid gets a
    cost vector of zeros. *)
Theorem valid_rollout_costs_nothing (out : computeCosts_exit) :
  call = Ok out ->
  min_twist_error_ self = tool_goal_tolerance_ self ->
  forallb is_finite (min_twist_error_ self) = true ->
  proper_range (min_twist_error_ self) (max_twist_error_ self) = true ->
  is_finite (position_cost_weight_ self) = true ->
  is_finite (orientation_cost_weight_ self) = true ->
  validity out = true ->
  forallb is_zero (costs out) = true.
Proof. exact (valid_costs_zero out). Qed.

(** X4: a call that returns has stored the last column of the trajectory, the
    tool pose reached from it and the twist error, has moved the robot state
    to that column, and has left the name, group, tool link, robot model,
    goal pose, tolerance, error range and weights of the object as they
    were. *)
Theorem computeCosts_keeps_configuration (out : computeCosts_exit) :
  call = Ok out ->
  (last_joint_pose_ (this out) = last P [] /\
   state_ (this out)
   = setJointGroupPositions (state_ self) (group_name_ self) (last P []) /\
   last_tool_pose_ (this out) = final_tool_pose self (last P []) /\
   tool_twist_error_ (this out) = twist) /\
  (name_ (this out) = name_ self /\
   group_name_ (this out) = group_name_ self /\
   tool_link_ (this out) = tool_link_ self /\
   robot_model_ (this out) = robot_model_ self /\
   tool_goal_pose_ (this out) = tool_goal_pose_ self /\
   tool_goal_tolerance_ (this out) = tool_goal_tolerance_ self /\
   min_twist_error_ (this out) = min_twist_error_ self /\
   max_twist_error_ (this out) = max_twist_error_ self /\
   position_cost_weight_ (this out) = position_cost_weight_ self /\
   orientation_cost_weight_ (this out) = orientation_cost_weight_ self /\
   cost_weight_ (this out) = cost_weight_ self).
Proof.
  intros H.
  destruct (computeCosts_Ok _ _ _ _ _ _ _ _ out H)
    as (s & ph & pe & rt & oe & w & _ & _ & _ & _ & _ & _ & _ & ->).
  cbn. repeat split; reflexivity.
Qed.

End ComputeCostsDomain.

Section ComputeCostsLastColumn.

Context {collaborators : Collaborators}.

(** X5: the outputs of [computeCosts] depend on the trajectory through its
    last column and its number of columns only: the columns before the last
    never count. *)
Theorem computeCosts_last_column_only (self : ToolGoalPose) (P1 P2 : MatrixXd)
  (start1 num1 start2 num2 : N) (iteration1 rollout1 iteration2 rollout2 : Z)
  (costs1 costs2 : VectorXd) (validity1 validity2 : bool) :
  last P1 [] = last P2 [] -> cols P1 = cols P2 ->
  outputs (computeCosts self P1 start1 num1 iteration1 rollout1 costs1 validity1)
  = outputs (computeCosts self P2 start2 num2 iteration2 rollout2 costs2 validity2).
Proof.
  intros Hlast Hcols. rewrite !outputs_computeCosts.
  destruct P1 as [| c1 P1'], P2 as [| c2 P2']; try discriminate Hcols.
  - reflexivity.
  - destruct (rightCols_defined (c1 :: P1')) as (q1 & -> & Hq1); [discriminate |].
    destruct (rightCols_defined (c2 :: P2')) as (q2 & -> & Hq2); [discriminate |].
    cbn [bind as_vector]. rewrite <- Hq1, <- Hq2, Hlast, Hcols. reflexivity.
Qed.

(** X6: when setting the positions of a joint group overwrites the positions
    set for it before, a call on the object that an earlier call has left,
    whatever trajectory that one scored, gives the outputs a call on the
    object before it gives. *)
Theorem computeCosts_calls_independent (self : ToolGoalPose) (P P' : MatrixXd)
  (start1 num1 start2 num2 : N) (iteration1 rollout1 iteration2 rollout2 : Z)
  (costs1 costs2 : VectorXd) (validity1 validity2 : bool)
  (out : computeCosts_exit) :
  group_positions_overwritten ->
  computeCosts self P' start1 num1 iteration1 rollout1 costs1 validity1 = Ok out ->
  outputs (computeCosts (this out) P start2 num2 iteration2 rollout2 costs2 validity2)
  = outputs (computeCosts self P start2 num2 iteration2 rollout2 costs2 validity2).
Proof.
  intros Hover H.
  destruct (computeCosts_Ok _ _ _ _ _ _ _ _ out H)
    as (s & ph & pe & rt & oe & w & _ & _ & _ & _ & _ & _ & _ & ->).
  cbn [this].
  pose proof (same_configuration_after_computeCosts self (last P' []) Hover) as S.
  rewrite !outputs_computeCosts.
  destruct (rightCols 1 P) as [rc |]; cbn [bind]; [| reflexivity].
  destruct (as_vector rc) as [q |]; cbn [bind]; [| reflexivity].
  rewrite (same_configuration_twist _ _ q S).
  reflexivity.
Qed.

End ComputeCostsLastColumn.

(** ** setMotionPlanRequest: the goals it reads and the range it sets *)

Lemma assign_tail_tail (n : nat) (dst src m : VectorXd) :
  assign_tail n dst src = Ok m -> tail n m = Ok src.
Proof.
  unfold assign_tail, tail.
  destruct (n <=? length dst)%nat eqn:Hn; [| discriminate].
  destruct (length src =? n)%nat eqn:Hs; [| discriminate].
  apply Nat.leb_le in Hn. apply Nat.eqb_eq in Hs.
  intros E; injection E as <-.
  rewrite length_app, length_firstn.
  replace (n <=? Nat.min (length dst - n) (length dst) + length src)%nat with true
    by (symmetry; apply Nat.leb_le; lia).
  replace (Nat.min (length dst - n) (length dst) + length src - n)%nat
    with (length (firstn (length dst - n) dst)) by (rewrite length_firstn; lia).
  rewrite skipn_app, skipn_all, Nat.sub_diag. reflexivity.
Qed.

Lemma assign_head_length (n : nat) (dst src m : VectorXd) :
  assign_head n dst src = Ok m -> length m = length dst.
Proof.
  unfold assign_head.
  destruct (n <=? length dst)%nat eqn:Hn; [| discriminate].
  destruct (length src =? n)%nat eqn:Hs; [| discriminate].
  apply Nat.leb_le in Hn. apply Nat.eqb_eq in Hs.
  intros E; injection E as <-. rewrite length_app, length_skipn. lia.
Qed.

Lemma assign_tail_length (n : nat) (dst src m : VectorXd) :
  assign_tail n dst src = Ok m -> length m = length dst.
Proof.
  unfold assign_tail.
  destruct (n <=? length dst)%nat eqn:Hn; [| discriminate].
  destruct (length src =? n)%nat eqn:Hs; [| discriminate].
  apply Nat.leb_le in Hn. apply Nat.eqb_eq in Hs.
  intros E; injection E as <-. rewrite length_app, length_firstn. lia.
Qed.

Lemma select_scalar_capped (s : float) (v c : VectorXd) :
  gt s s = false ->
  select_scalar (map (fun x => gt x s) v) s v = Ok c ->
  Forall (fun x => gt x s = false) c.
Proof.
  intros Hs. unfold select_scalar. revert c.
  induction v as [| x v IH]; intros c H; cbn [map cwise] in H.
  - injection H as <-; constructor.
  - bind_inv H. injection H as <-. constructor; [| apply IH; exact E].
    destruct (gt x s) eqn:Hx; assumption.
Qed.

Section SetMotionPlanRequestMore.

Context {collaborators : Collaborators}.

(** The object when the loop over the goals is entered. *)
Local Abbreviation entered self req :=
  (set_state_
     (robotStateMsgToRobotState (start_state req)
        (newRobotState (robot_model_ self)))
     (set_state_ (newRobotState (robot_model_ self))
        (set_tool_link_ (lastLinkModelName (robot_model_ self) (group_name_ self))
           self))).

(** The loop is left in its first iteration. *)
Lemma goals_loop_first (g : Constraints) (rest rest' : list Constraints)
  (self : ToolGoalPose) :
  goals_loop (g :: rest) self false = goals_loop (g :: rest') self false.
Proof.
  cbn [goals_loop]. destruct (validateCartesianConstraints g); [reflexivity |].
  cbn [negb]. reflexivity.
Qed.

(** The [return] inside the loop returns [false] with
    [INVALID_GOAL_CONSTRAINTS], from a first goal that has neither a valid
    cartesian constraint nor joint constraints, and leaves the object as it
    entered the loop. *)
Lemma goals_loop_return (goals : list Constraints) (self s : ToolGoalPose)
  (e : MoveItErrorCodes) (r : bool) :
  goals_loop goals self false = loop_return s e r ->
  s = self /\ e = {| val := INVALID_GOAL_CONSTRAINTS |} /\ r = false /\
  exists g rest, goals = g :: rest /\ validateCartesianConstraints g = false /\
                 joint_constraints g = [].
Proof.
  destruct goals as [| g rest]; cbn [goals_loop]; [discriminate |].
  destruct (validateCartesianConstraints g) eqn:Hc.
  - destruct (decodeCartesianConstraint _ _ _) as [[found pose] tolerance].
    discriminate.
  - cbn [negb]. destruct (joint_constraints g) eqn:Hj; [| discriminate].
    intros H; injection H as <- <- <-.
    repeat split. exists g, rest; repeat split; assumption.
Qed.

(** The object when the loop is left by [break]: from a cartesian first goal,
    and from a first goal given by joint constraints. *)
Local Abbreviation cartesian_exit self0 g :=
  (set_tool_goal_pose_
     (snd (fst (decodeCartesianConstraint
                  (constructCartesianConstraints g
                     (getGlobalLinkTransform (updateLinkTransforms (state_ self0))
                        (tool_link_ self0)))
                  (tool_goal_pose_ self0) [])))
     (set_state_ (updateLinkTransforms (state_ self0)) self0)).

Local Abbreviation joint_state self0 g :=
  (update
     (fold_left (fun s jc => setVariablePosition s (joint_name jc) (position jc))
        (joint_constraints g) (state_ self0))).

Local Abbreviation joint_exit self0 g :=
  (set_tool_goal_tolerance_
     [DEFAULT_POS_TOLERANCE; DEFAULT_POS_TOLERANCE; DEFAULT_POS_TOLERANCE;
      DEFAULT_ROT_TOLERANCE; DEFAULT_ROT_TOLERANCE; DEFAULT_ROT_TOLERANCE]
     (set_tool_goal_pose_
        (getGlobalLinkTransform (joint_state self0 g) (tool_link_ self0))
        (set_state_ (joint_state self0 g) self0))).

Lemma goals_loop_done (goals : list Constraints) (self0 s : ToolGoalPose)
  (found : bool) :
  goals <> [] ->
  goals_loop goals self0 false = loop_done s found ->
  exists g rest, goals = g :: rest /\
    ((validateCartesianConstraints g = true /\ s = cartesian_exit self0 g) \/
     (validateCartesianConstraints g = false /\ joint_constraints g <> [] /\
      found = true /\ s = joint_exit self0 g)).
Proof.
  destruct goals as [| g rest]; [congruence |]. intros _ H.
  cbn [goals_loop] in H. exists g, rest; split; [reflexivity |].
  destruct (validateCartesianConstraints g) eqn:Hc.
  - left; split; [reflexivity |].
    cbn [state_ tool_link_ tool_goal_pose_ set_state_] in H.
    destruct (decodeCartesianConstraint _ _ _) as [[fnd pose] tolerance] eqn:Hd.
    injection H as <- <-. cbn [fst snd]. reflexivity.
  - right. cbn [negb] in H. destruct (joint_constraints g) eqn:Hj; [discriminate |].
    injection H as <- <-. repeat split; congruence.
Qed.

(** Every call that returns [true] has left the loop by [break] and has then
    set the error range from the goal tolerance. *)
Lemma setMotionPlanRequest_true (self self' : ToolGoalPose)
  (planning_scene : PlanningScene) (req : MotionPlanRequest)
  (config : StompConfiguration) (error_code error_code' : MoveItErrorCodes) :
  setMotionPlanRequest self planning_scene req config error_code
  = Ok (self', error_code', true) ->
  exists s found min_head m1 min_tail m2 max_tail capped m3,
    goals_loop (goal_constraints req) (entered self req) false = loop_done s found /\
    goal_constraints req <> [] /\
    error_code' = error_code /\
    head 3 (tool_goal_tolerance_ s) = Ok min_head /\
    assign_head 3 (max_twist_error_ s) (scale min_head POS_MAX_ERROR_RATIO) = Ok m1 /\
    tail 3 (tool_goal_tolerance_ s) = Ok min_tail /\
    assign_tail 3 m1 (scale min_tail ROT_MAX_ERROR_RATIO) = Ok m2 /\
    tail 3 m2 = Ok max_tail /\
    select_scalar (map (fun x => gt x M_PI) max_tail) M_PI max_tail = Ok capped /\
    assign_tail 3 m2 capped = Ok m3 /\
    self' = set_max_twist_error_ m3 (set_min_twist_error_ (tool_goal_tolerance_ s) s).
Proof.
  unfold setMotionPlanRequest.
  destruct (goal_constraints req) as [| g rest] eqn:Hg; [discriminate |].
  match goal with
  | |- context [goals_loop _ ?s0 false] => change s0 with (entered self req)
  end.
  destruct (goals_loop (g :: rest) (entered self req) false) as [s found | s e r] eqn:Hloop.
  - cbn [min_twist_error_ max_twist_error_ set_min_twist_error_ set_max_twist_error_].
    intros H. bind_inv H. bind_inv H. bind_inv H. bind_inv H. bind_inv H.
    bind_inv H. bind_inv H. injection H as <- <-.
    exists s, found, x, x0, x1, x2, x3, x4, x5.
    repeat split; try assumption. discriminate.
  - apply goals_loop_return in Hloop as (_ & _ & -> & _).
    intros H; injection H as _ _ H; discriminate.
Qed.

(** X7: [setMotionPlanRequest] reads the first goal constraint only: two
    requests with the same start state and the same first goal have the same
    outcome, whatever goals follow. *)
Theorem setMotionPlanRequest_first_goal_only (self : ToolGoalPose)
  (planning_scene planning_scene' : PlanningScene) (req req' : MotionPlanRequest)
  (config config' : StompConfiguration) (error_code : MoveItErrorCodes)
  (g : Constraints) (rest rest' : list Constraints) :
  start_state req = start_state req' ->
  goal_constraints req = g :: rest -> goal_constraints req' = g :: rest' ->
  setMotionPlanRequest self planning_scene req config error_code
  = setMotionPlanRequest self planning_scene' req' config' error_code.
Proof.
  intros Hs Hg Hg'. unfold setMotionPlanRequest.
  rewrite Hg, Hg', Hs, (goals_loop_first g rest rest'). reflexivity.
Qed.

(** X8: [setMotionPlanRequest] returns [false] only for a request without
    goal constraints or with a first goal that has neither a valid cartesian
    constraint nor joint constraints; it has then set [error_code.val] to
    [INVALID_GOAL_CONSTRAINTS], the tool link and the robot state, and has
    left the goal pose, the tolerance, the error range and the weights as
    they were. *)
Theorem setMotionPlanRequest_false (self self' : ToolGoalPose)
  (planning_scene : PlanningScene) (req : MotionPlanRequest)
  (config : StompConfiguration) (error_code error_code' : MoveItErrorCodes) :
  setMotionPlanRequest self planning_scene req config error_code
  = Ok (self', error_code', false) ->
  (goal_constraints req = [] \/
   exists g rest, goal_constraints req = g :: rest /\
                  validateCartesianConstraints g = false /\
                  joint_constraints g = []) /\
  val error_code' = INVALID_GOAL_CONSTRAINTS /\
  tool_link_ self' = lastLinkModelName (robot_model_ self) (group_name_ self) /\
  state_ self'
  = robotStateMsgToRobotState (start_state req) (newRobotState (robot_model_ self)) /\
  tool_goal_pose_ self' = tool_goal_pose_ self /\
  tool_goal_tolerance_ self' = tool_goal_tolerance_ self /\
  min_twist_error_ self' = min_twist_error_ self /\
  max_twist_error_ self' = max_twist_error_ self /\
  position_cost_weight_ self' = position_cost_weight_ self /\
  orientation_cost_weight_ self' = orientation_cost_weight_ self.
Proof.
  unfold setMotionPlanRequest.
  destruct (goal_constraints req) as [| g rest] eqn:Hg.
  - intros H; injection H as <- <-. split; [left; reflexivity |].
    cbn. repeat split; reflexivity.
  - match goal with
    | |- context [goals_loop _ ?s0 false] => change s0 with (entered self req)
    end.
    destruct (goals_loop (g :: rest) (entered self req) false)
      as [s found | s e r] eqn:Hloop.
    + intros H. bind_inv H. bind_inv H. bind_inv H. bind_inv H. bind_inv H.
      bind_inv H. bind_inv H. discriminate H.
    + apply goals_loop_return in Hloop as (-> & -> & -> & g' & rest' & E & Hc & Hj).
      injection E as <- <-.
      intros H; injection H as <- <-. split.
      * right; exists g, rest; repeat split; assumption.
      * cbn. repeat split; reflexivity.
Qed.

(** X9: after a call that returns [true], the lower end of the error range is
    the goal tolerance, and [error_code] is as it was passed. *)
Theorem setMotionPlanRequest_min_is_tolerance (self self' : ToolGoalPose)
  (planning_scene : PlanningScene) (req : MotionPlanRequest)
  (config : StompConfiguration) (error_code error_code' : MoveItErrorCodes) :
  setMotionPlanRequest self planning_scene req config error_code
  = Ok (self', error_code', true) ->
  min_twist_error_ self' = tool_goal_tolerance_ self' /\
  length (max_twist_error_ self') = length (max_twist_error_ self) /\
  error_code' = error_code.
Proof.
  intros H.
  destruct (setMotionPlanRequest_true _ _ _ _ _ _ _ H)
    as (s & found & mh & m1 & mt & m2 & xt & capped & m3 & Hloop & Hne & He
        & Hmh & Hm1 & Hmt & Hm2 & Hxt & Hc & Hm3 & ->).
  cbn [min_twist_error_ tool_goal_tolerance_ max_twist_error_
       set_min_twist_error_ set_max_twist_error_].
  split; [reflexivity |]. split; [| exact He].
  apply assign_tail_length in Hm3, Hm2. apply assign_head_length in Hm1.
  destruct (goals_loop_done _ _ _ _ Hne Hloop)
    as (g & rest & _ & [[_ ->] | (_ & _ & _ & ->)]);
    cbn [max_twist_error_ set_tool_goal_pose_ set_state_ set_tool_goal_tolerance_
         set_tool_link_] in Hm1; congruence.
Qed.

(** X10: after a call that returns [true], none of the last three components
    of the upper end of the error range is above [M_PI]. *)
Theorem setMotionPlanRequest_rotation_range_capped (self self' : ToolGoalPose)
  (planning_scene : PlanningScene) (req : MotionPlanRequest)
  (config : StompConfiguration) (error_code error_code' : MoveItErrorCodes) :
  setMotionPlanRequest self planning_scene req config error_code
  = Ok (self', error_code', true) ->
  exists max_tail,
    tail 3 (max_twist_error_ self') = Ok max_tail /\
    length max_tail = 3%nat /\
    Forall (fun x => gt x M_PI = false) max_tail.
Proof.
  intros H.
  destruct (setMotionPlanRequest_true _ _ _ _ _ _ _ H)
    as (s & found & mh & m1 & mt & m2 & xt & capped & m3 & Hloop & Hne & He
        & Hmh & Hm1 & Hmt & Hm2 & Hxt & Hc & Hm3 & ->).
  cbn [max_twist_error_ set_max_twist_error_].
  exists capped. split; [exact (assign_tail_tail _ _ _ _ Hm3) |]. split.
  - unfold assign_tail in Hm3.
    destruct ((3 <=? length m2) && (length capped =? 3))%nat eqn:E; [| discriminate].
    apply andb_true_iff in E as [_ E]. apply Nat.eqb_eq in E. exact E.
  - apply (select_scalar_capped M_PI xt capped); [reflexivity | exact Hc].
Qed.

(** X11: for a first goal that validates as a cartesian constraint, a call
    that returns returns [true] and leaves [error_code] as it was; the goal
    pose is the one [decodeCartesianConstraint] gives, also when that reports
    no goal found; the tolerance it decodes is dropped: the goal tolerance
    stays as it was and becomes the lower end of the error range. *)
Theorem setMotionPlanRequest_cartesian_goal (self self' : ToolGoalPose)
  (planning_scene : PlanningScene) (req : MotionPlanRequest)
  (config : StompConfiguration) (error_code error_code' : MoveItErrorCodes)
  (g : Constraints) (rest : list Constraints) (r : bool) :
  goal_constraints req = g :: rest ->
  validateCartesianConstraints g = true ->
  setMotionPlanRequest self planning_scene req config error_code
  = Ok (self', error_code', r) ->
  r = true /\ error_code' = error_code /\
  tool_goal_pose_ self'
  = snd (fst (decodeCartesianConstraint
                (constructCartesianConstraints g
                   (getGlobalLinkTransform
                      (updateLinkTransforms
                         (robotStateMsgToRobotState (start_state req)
                            (newRobotState (robot_model_ self))))
                      (lastLinkModelName (robot_model_ self) (group_name_ self))))
                (tool_goal_pose_ self) [])) /\
  tool_goal_tolerance_ self' = tool_goal_tolerance_ self /\
  min_twist_error_ self' = tool_goal_tolerance_ self.
Proof.
  intros Hg Hc H. destruct r.
  - destruct (setMotionPlanRequest_true _ _ _ _ _ _ _ H)
      as (s & found & mh & m1 & mt & m2 & xt & capped & m3 & Hloop & Hne & He
          & _ & _ & _ & _ & _ & _ & _ & ->).
    destruct (goals_loop_done _ _ _ _ Hne Hloop)
      as (g' & rest' & E & [[_ ->] | (Hc' & _)]);
      rewrite Hg in E; injection E as <- <-; [| congruence].
    split; [reflexivity |]. split; [exact He |].
    cbn. repeat split; reflexivity.
  - exfalso. revert H. unfold setMotionPlanRequest. rewrite Hg.
    cbn [goals_loop]. rewrite Hc.
    destruct (decodeCartesianConstraint _ _ _) as [[fnd pose] tolerance].
    intros H. bind_inv H. bind_inv H. bind_inv H. bind_inv H. bind_inv H.
    bind_inv H. bind_inv H. discriminate H.
Qed.

(** The outcome for a first goal given by joint constraints. *)
Lemma joint_goal_outcome (self : ToolGoalPose)
  (planning_scene : PlanningScene) (req : MotionPlanRequest)
  (config : StompConfiguration) (error_code : MoveItErrorCodes)
  (g : Constraints) (rest : list Constraints) :
  goal_constraints req = g :: rest ->
  validateCartesianConstraints g = false ->
  joint_constraints g <> [] ->
  length (max_twist_error_ self) = CARTESIAN_DOF_SIZE ->
  setMotionPlanRequest self planning_scene req config error_code
  = Ok (set_max_twist_error_
          (map (fun x => x * 10)%float
             [DEFAULT_POS_TOLERANCE; DEFAULT_POS_TOLERANCE; DEFAULT_POS_TOLERANCE;
              DEFAULT_ROT_TOLERANCE; DEFAULT_ROT_TOLERANCE; DEFAULT_ROT_TOLERANCE])
          (set_min_twist_error_
             [DEFAULT_POS_TOLERANCE; DEFAULT_POS_TOLERANCE; DEFAULT_POS_TOLERANCE;
              DEFAULT_ROT_TOLERANCE; DEFAULT_ROT_TOLERANCE; DEFAULT_ROT_TOLERANCE]
             (joint_exit (entered self req) g)),
        error_code, true).
Proof.
  intros Hg Hc Hj Hmax. unfold setMotionPlanRequest. rewrite Hg.
  cbn [goals_loop]. rewrite Hc. cbn [negb].
  destruct (joint_constraints g) as [| jc jcs] eqn:Ej; [congruence |].
  cbn [state_ tool_link_ robot_model_ group_name_ tool_goal_tolerance_
       min_twist_error_ max_twist_error_
       set_state_ set_tool_link_ set_tool_goal_pose_ set_tool_goal_tolerance_
       set_min_twist_error_ set_max_twist_error_].
  destruct (max_twist_error_ self) as [| a [| b [| c [| d [| e [| f [| ? ?]]]]]]];
    try discriminate Hmax.
  reflexivity.
Qed.

(** X12: for a first goal that does not validate as a cartesian constraint
    and has joint constraints, on an object whose error range has six
    components, the call returns [true] and leaves [error_code] as it was;
    the goal pose is the tool pose of the start state with the joint
    constraints' positions set; the goal tolerance and the lower end of the
    error range are the default position and rotation tolerances, and the
    upper end is ten times that. *)
Theorem setMotionPlanRequest_joint_goal (self : ToolGoalPose)
  (planning_scene : PlanningScene) (req : MotionPlanRequest)
  (config : StompConfiguration) (error_code : MoveItErrorCodes)
  (g : Constraints) (rest : list Constraints) :
  goal_constraints req = g :: rest ->
  validateCartesianConstraints g = false ->
  joint_constraints g <> [] ->
  length (max_twist_error_ self) = CARTESIAN_DOF_SIZE ->
  exists self',
    setMotionPlanRequest self planning_scene req config error_code
    = Ok (self', error_code, true) /\
    tool_link_ self' = lastLinkModelName (robot_model_ self) (group_name_ self) /\
    state_ self'
    = update
        (fold_left (fun s jc => setVariablePosition s (joint_name jc) (position jc))
           (joint_constraints g)
           (robotStateMsgToRobotState (start_state req)
              (newRobotState (robot_model_ self)))) /\
    tool_goal_pose_ self' = getGlobalLinkTransform (state_ self') (tool_link_ self') /\
    tool_goal_tolerance_ self'
    = [DEFAULT_POS_TOLERANCE; DEFAULT_POS_TOLERANCE; DEFAULT_POS_TOLERANCE;
       DEFAULT_ROT_TOLERANCE; DEFAULT_ROT_TOLERANCE; DEFAULT_ROT_TOLERANCE] /\
    min_twist_error_ self' = tool_goal_tolerance_ self' /\
    max_twist_error_ self'
    = map (fun x => x * 10)%float (tool_goal_tolerance_ self') /\
    position_cost_weight_ self' = position_cost_weight_ self /\
    orientation_cost_weight_ self' = orientation_cost_weight_ self.
Proof.
  intros Hg Hc Hj Hmax.
  eexists; split;
    [exact (joint_goal_outcome self planning_scene req config error_code g rest
              Hg Hc Hj Hmax) |].
  cbn. repeat split; reflexivity.
Qed.

(** ** setMotionPlanRequest, then computeCosts *)

Section PlannedThenScored.

Variables (self self' : ToolGoalPose).
Variables (planning_scene : PlanningScene) (req : MotionPlanRequest).
Variables (config : StompConfiguration) (error_code error_code' : MoveItErrorCodes).
Variables (g : Constraints) (rest : list Constraints).

Hypothesis first_goal : goal_constraints req = g :: rest.
Hypothesis not_cartesian : validateCartesianConstraints g = false.
Hypothesis six_range : length (max_twist_error_ self) = CARTESIAN_DOF_SIZE.
Hypothesis planned :
  setMotionPlanRequest self planning_scene req config error_code
  = Ok (self', error_code', true).

Variables (P : MatrixXd) (start_timestep num_timesteps : N).
Variables (iteration_number rollout_number : Z).
Variables (costs0 : VectorXd) (validity0 : bool).

Lemma planned_object :
  tool_goal_tolerance_ self'
  = [DEFAULT_POS_TOLERANCE; DEFAULT_POS_TOLERANCE; DEFAULT_POS_TOLERANCE;
     DEFAULT_ROT_TOLERANCE; DEFAULT_ROT_TOLERANCE; DEFAULT_ROT_TOLERANCE] /\
  min_twist_error_ self' = tool_goal_tolerance_ self' /\
  max_twist_error_ self' = map (fun x => x * 10)%float (tool_goal_tolerance_ self') /\
  position_cost_weight_ self' = position_cost_weight_ self /\
  orientation_cost_weight_ self' = orientation_cost_weight_ self.
Proof.
  assert (Hj : joint_constraints g <> []).
  { intros Hj. revert planned. unfold setMotionPlanRequest.
    rewrite first_goal. cbn [goals_loop]. rewrite not_cartesian, Hj. discriminate. }
  pose proof (joint_goal_outcome self planning_scene req config error_code g rest
                first_goal not_cartesian Hj six_range) as E.
  rewrite planned in E. injection E as -> _.
  cbn. repeat split; reflexivity.
Qed.

(** X13: after a request with a joint goal has been accepted, [computeCosts]
    returns, with [true], for every trajectory that has a column and yields a
    twist error of six components. *)
Theorem computeCosts_after_joint_goal :
  P <> [] ->
  length (final_twist_error self' (last P [])) = CARTESIAN_DOF_SIZE ->
  exists out,
    computeCosts self' P start_timestep num_timesteps iteration_number
      rollout_number costs0 validity0 = Ok out /\
    returned out = true.
Proof.
  intros HP Ht.
  destruct planned_object as (Htol & Hmin & Hmax & _).
  destruct (computeCosts_returns self' P start_timestep num_timesteps
              iteration_number rollout_number costs0 validity0 HP) as [out Hout].
  { unfold six_dof. rewrite Hmax, Hmin, Htol. repeat split. exact Ht. }
  exists out; split; [exact Hout |].
  destruct (computeCosts_Ok _ _ _ _ _ _ _ _ out Hout)
    as (s & ph & pe & rt & oe & w & _ & _ & _ & _ & _ & _ & _ & ->).
  reflexivity.
Qed.

(** X14: after a request with a joint goal has been accepted on an object
    with finite weights, every rollout that [computeCosts] reports valid gets
    a cost vector of zeros. *)
Theorem valid_rollout_after_joint_goal_costs_nothing (out : computeCosts_exit) :
  is_finite (position_cost_weight_ self) = true ->
  is_finite (orientation_cost_weight_ self) = true ->
  computeCosts self' P start_timestep num_timesteps iteration_number
    rollout_number costs0 validity0 = Ok out ->
  validity out = true ->
  forallb is_zero (costs out) = true.
Proof.
  intros Hpw How Hout Hvalid.
  destruct planned_object as (Htol & Hmin & Hmax & Epw & Eow).
  apply (valid_costs_zero self' P start_timestep num_timesteps iteration_number
           rollout_number costs0 validity0 out Hout); try assumption.
  - rewrite Hmin, Htol; reflexivity.
  - rewrite Hmax, Hmin, Htol; reflexivity.
  - rewrite Epw; exact Hpw.
  - rewrite Eow; exact How.
Qed.

End PlannedThenScored.

End SetMotionPlanRequestMore.

(** ** configure: what a failure leaves, and configuring twice *)

Section ConfigureMore.

Context {collaborators : Collaborators}.

(** X15: when the position weight does not convert, [configure] leaves the
    object as it was; when it converts and the orientation weight does not,
    the position weight is stored while the orientation weight and the total
    weight stay as they were. *)
Theorem configure_failure_state (self : ToolGoalPose) (config : XmlRpcValue) :
  (forall m,
     member_as_double config "position_cost_weight" = Throws m ->
     configure self config = (self, false)) /\
  (forall p m,
     member_as_double config "position_cost_weight" = Value p ->
     member_as_double config "orientation_cost_weight" = Throws m ->
     snd (configure self config) = false /\
     position_cost_weight_ (fst (configure self config)) = p /\
     orientation_cost_weight_ (fst (configure self config))
     = orientation_cost_weight_ self /\
     cost_weight_ (fst (configure self config)) = cost_weight_ self).
Proof.
  unfold configure; split.
  - intros m ->. reflexivity.
  - intros p m -> ->. cbn. repeat split; reflexivity.
Qed.

(** X16: configuring an object again with the same configuration changes
    nothing. *)
Theorem configure_idempotent (self : ToolGoalPose) (config : XmlRpcValue) :
  configure (fst (configure self config)) config = configure self config.
Proof.
  unfold configure.
  destruct (member_as_double config "position_cost_weight") as [p | m];
    [| reflexivity].
  destruct (member_as_double config "orientation_cost_weight") as [o | m];
    reflexivity.
Qed.

End ConfigureMore.

(** * The gantry: further evaluations *)

Section GantryMore.

Import Gantry.

Lemma compute_scaled_error_component_witness :
  nth_error [110.99999999999999; 0; 0; 0; 0; 0]%float 0
  = Some (((if PrimFloat.ltb (nth 0 one_off 0) (nth 0 (min_twist_error_ (evaluator one_off)) 0)
            then nth 0 (min_twist_error_ (evaluator one_off)) 0 else nth 0 one_off 0)
           - nth 0 (min_twist_error_ (evaluator one_off)) 0)
          / (nth 0 (max_twist_error_ (evaluator one_off)) 0
             - nth 0 (min_twist_error_ (evaluator one_off)) 0))%float.
Proof.
  apply (compute_scaled_error_component one_off
           (min_twist_error_ (evaluator one_off))
           (max_twist_error_ (evaluator one_off))).
  - reflexivity.
  - cbn; lia.
Defined.

Lemma valid_rollout_costs_nothing_witness :
  exists out,
    computeCosts (evaluator one_off) go_one_off 0 2 0 0 [] false = Ok out /\
    validity out = true /\
    forallb is_zero (costs out) = true.
Proof.
  eexists; split; [reflexivity |]. split; [reflexivity |].
  apply (valid_rollout_costs_nothing (evaluator one_off) go_one_off 0 2 0 0 [] false);
    reflexivity.
Defined.

Lemma computeCosts_keeps_configuration_witness :
  exists out,
    computeCosts (evaluator one_off) stay_home 0 3 0 0 [] false = Ok out /\
    last_joint_pose_ (this out) = home /\
    tool_goal_pose_ (this out) = one_off /\
    max_twist_error_ (this out) = max_twist_error_ (evaluator one_off).
Proof.
  eexists; split; [reflexivity |].
  destruct (computeCosts_keeps_configuration (evaluator one_off) stay_home 0 3 0 0 []
              false _ eq_refl)
    as ((Hq & _) & (_ & _ & _ & _ & Hgoal & _ & _ & Hmax & _)).
  split; [exact Hq |]. split; [exact Hgoal | exact Hmax].
Defined.

Lemma computeCosts_last_column_only_witness :
  outputs (computeCosts (evaluator one_off) [one_off; far_off; home] 0 3 0 0 [] false)
  = outputs (computeCosts (evaluator one_off) stay_home 0 3 0 0 [] false).
Proof.
  apply (computeCosts_last_column_only (evaluator one_off)
           [one_off; far_off; home] stay_home); reflexivity.
Defined.

Lemma computeCosts_calls_independent_witness :
  exists out,
    computeCosts (evaluator one_off) go_one_off 0 2 0 0 [] false = Ok out /\
    outputs (computeCosts (this out) stay_home 0 3 1 1 [] false)
    = outputs (computeCosts (evaluator one_off) stay_home 0 3 1 1 [] false).
Proof.
  eexists; split; [reflexivity |].
  apply (computeCosts_calls_independent (evaluator one_off) stay_home go_one_off
           0 2 0 3 0 0 1 1 [] [] false false).
  - exact gantry_positions_overwritten.
  - reflexivity.
Defined.

Lemma setMotionPlanRequest_first_goal_only_witness :
  setMotionPlanRequest unplanned tt (move_x 1) tt {| val := 0 |}
  = setMotionPlanRequest unplanned tt (move_x_then_reach 1 far_off) tt {| val := 0 |}.
Proof.
  apply (setMotionPlanRequest_first_goal_only unplanned tt tt (move_x 1)
           (move_x_then_reach 1 far_off) tt tt {| val := 0 |}
           {| cartesian := None;
              joints := [ {| joint_name := "x"%string; position := 1%float |} ] |}
           [] [ {| cartesian := Some far_off; joints := [] |} ]);
    reflexivity.
Defined.

Lemma setMotionPlanRequest_false_witness :
  exists self' error_code',
    setMotionPlanRequest (evaluator one_off) tt empty_goal tt {| val := 0 |}
    = Ok (self', error_code', false) /\
    val error_code' = (-16)%Z /\
    tool_goal_pose_ self' = one_off /\
    max_twist_error_ self' = max_twist_error_ (evaluator one_off).
Proof.
  eexists _, _; split; [reflexivity |].
  destruct (setMotionPlanRequest_false (evaluator one_off) _ tt empty_goal tt
              {| val := 0 |} _ eq_refl)
    as (_ & Hval & _ & _ & Hgoal & _ & _ & Hmax & _).
  split; [exact Hval |]. split; [exact Hgoal | exact Hmax].
Defined.

Lemma setMotionPlanRequest_min_is_tolerance_witness :
  setMotionPlanRequest unplanned tt (move_x 1) tt {| val := 0 |}
  = Ok (evaluator one_off, {| val := 0 |}, true) /\
  min_twist_error_ (evaluator one_off) = tool_goal_tolerance_ (evaluator one_off) /\
  length (max_twist_error_ (evaluator one_off)) = length (max_twist_error_ unplanned) /\
  {| val := 0 |} = {| val := 0 |}.
Proof.
  split; [reflexivity |].
  exact (setMotionPlanRequest_min_is_tolerance unplanned (evaluator one_off) tt
           (move_x 1) tt {| val := 0 |} {| val := 0 |} eq_refl).
Defined.

Lemma setMotionPlanRequest_rotation_range_capped_witness :
  exists self' error_code' max_tail,
    setMotionPlanRequest unplanned tt (move_x 1) tt {| val := 0 |}
    = Ok (self', error_code', true) /\
    tail 3 (max_twist_error_ self') = Ok max_tail /\
    length max_tail = 3%nat /\
    Forall (fun x => gt x M_PI = false) max_tail.
Proof.
  destruct (setMotionPlanRequest_rotation_range_capped unplanned
              (evaluator one_off) tt (move_x 1) tt {| val := 0 |} {| val := 0 |}
              eq_refl) as (t & H).
  exists (evaluator one_off), {| val := 0 |}, t; split; [reflexivity | exact H].
Defined.

Lemma setMotionPlanRequest_cartesian_goal_witness :
  setMotionPlanRequest (evaluator home) tt (reach one_off) tt {| val := 0 |}
  = Ok (@set_tool_goal_pose_ gantry one_off (evaluator home), {| val := 0 |}, true) /\
  tool_goal_pose_ (@set_tool_goal_pose_ gantry one_off (evaluator home)) = one_off /\
  tool_goal_tolerance_ (@set_tool_goal_pose_ gantry one_off (evaluator home))
  = tool_goal_tolerance_ (evaluator home) /\
  min_twist_error_ (@set_tool_goal_pose_ gantry one_off (evaluator home))
  = tool_goal_tolerance_ (evaluator home).
Proof.
  split; [reflexivity |].
  destruct (setMotionPlanRequest_cartesian_goal (evaluator home)
              (@set_tool_goal_pose_ gantry one_off (evaluator home)) tt (reach one_off) tt
              {| val := 0 |} {| val := 0 |}
              {| cartesian := Some one_off; joints := [] |} [] true
              eq_refl eq_refl eq_refl)
    as (_ & _ & Hpose & Htol & Hmin).
  split; [exact Hpose |]. split; [exact Htol | exact Hmin].
Defined.

Lemma setMotionPlanRequest_joint_goal_witness :
  exists self',
    setMotionPlanRequest unplanned tt (move_x 1) tt {| val := 0 |}
    = Ok (self', {| val := 0 |}, true) /\
    tool_goal_pose_ self' = one_off /\
    min_twist_error_ self' = [0.001; 0.001; 0.001; 0.01; 0.01; 0.01]%float /\
    max_twist_error_ self' = [0.01; 0.01; 0.01; 0.1; 0.1; 0.1]%float.
Proof.
  destruct (setMotionPlanRequest_joint_goal unplanned tt (move_x 1) tt {| val := 0 |}
              {| cartesian := None;
                 joints := [ {| joint_name := "x"%string; position := 1%float |} ] |}
              [])
    as (self' & Hcall & Hlink & Hstate & Hpose & Htol & Hmin & Hmax & _);
    try reflexivity; try discriminate.
  exists self'; split; [exact Hcall |].
  rewrite Hpose, Hstate, Hmin, Hmax, Htol. repeat split; reflexivity.
Defined.

Lemma computeCosts_after_joint_goal_witness :
  exists out,
    computeCosts (evaluator one_off) go_one_off 0 2 0 0 [] false = Ok out /\
    returned out = true.
Proof.
  apply (computeCosts_after_joint_goal unplanned (evaluator one_off) tt (move_x 1) tt
           {| val := 0 |} {| val := 0 |}
           {| cartesian := None;
              joints := [ {| joint_name := "x"%string; position := 1%float |} ] |}
           []); try reflexivity.
  discriminate.
Defined.

Lemma valid_rollout_after_joint_goal_costs_nothing_witness :
  exists out,
    computeCosts (evaluator one_off) go_one_off 0 2 0 0 [] false = Ok out /\
    validity out = true /\
    forallb is_zero (costs out) = true.
Proof.
  eexists; split; [reflexivity |]. split; [reflexivity |].
  apply (valid_rollout_after_joint_goal_costs_nothing unplanned (evaluator one_off)
           tt (move_x 1) tt {| val := 0 |} {| val := 0 |}
           {| cartesian := None;
              joints := [ {| joint_name := "x"%string; position := 1%float |} ] |}
           [] eq_refl eq_refl eq_refl eq_refl go_one_off 0 2 0 0 [] false);
    reflexivity.
Defined.

Lemma configure_failure_state_witness :
  configure unplanned (fun _ => Throws "type error"%string) = (unplanned, false) /\
  position_cost_weight_ (fst (configure unplanned weight_as_string)) = 2%float /\
  cost_weight_ (fst (configure unplanned weight_as_string)) = 2%float /\
  orientation_cost_weight_ (fst (configure unplanned weight_as_string)) = 1%float.
Proof.
  destruct (configure_failure_state unplanned (fun _ => Throws "type error"%string))
    as [H1 _].
  destruct (configure_failure_state unplanned weight_as_string) as [_ H2].
  destruct (H2 2%float "type error"%string eq_refl eq_refl) as (_ & Hp & Ho & Hc).
  split; [exact (H1 "type error"%string eq_refl) |].
  split; [exact Hp |]. split; [exact Hc | exact Ho].
Defined.

End GantryMore.
